(** * idempLib: an idempotency middleware over a Redis key store

    A shallow embedding of the Go package [idempLib]
    (IdempotencyHandler.go with the Redis repository, and the earlier
    idempontecyService.go) together with the properties its
    specification states about it.

    Layout: Go runtime notions ([GoRt]), the external collaborators
    (the go-redis client and server, the OpenTelemetry tracer, net/http),
    the repository, the handler of IdempotencyHandler.go, the handler of
    idempontecyService.go ([Service]), a small-step view of the
    middleware for interleaved requests, and then the theorems. *)

From Stdlib Require Import ZArith Ascii String List Lia.
From stdpp Require Import base option list strings gmap.

Local Open Scope Z_scope.

(* ===================================================================== *)
(** * Go runtime notions *)
(* ===================================================================== *)

Module GoRt.

(** A Go [error] value built by [errors.New]: its message. *)
Definition error : Type := string.
Definition errors_New (msg : string) : error := msg.

(** The result of running Go code that may panic. *)
Inductive Go (A : Type) : Type :=
| Ret (a : A)
| Panic (msg : string).
Arguments Ret {A} a.
Arguments Panic {A} msg.

#[global] Instance Go_ret : MRet Go := fun A a => Ret a.
#[global] Instance Go_bind : MBind Go := fun A B k m =>
  match m with
  | Ret a => k a
  | Panic msg => Panic msg
  end.

(** Sequencing, written [let* x := m in k], for both kinds of computation
    of this development: Go code that may panic, and code that acts
    on the world. *)
Definition bind {Mo : Type -> Type} `{MBind Mo} {A B : Type}
    (m : Mo A) (k : A -> Mo B) : Mo B := mbind k m.

(** A Go result pair [(T, error)] of which exactly one component is
    non-nil: [(v, nil)] is [Value v] and [(nil, err)] is [Failure err]. *)
Inductive Result (T : Type) : Type :=
| Value (v : T)
| Failure (err : error).
Arguments Value {T} v.
Arguments Failure {T} err.

(** [s[i]] on a slice: a run-time panic when [i] is out of range. *)
Definition index {A} (s : list A) (i : nat) : Go A :=
  match s !! i with
  | Some a => Ret a
  | None => Panic "index out of range"
  end.

(** [make([]T, n)]: [n] zero values. *)
Definition make {A} (zero : A) (n : nat) : list A := replicate n zero.

(** [fmt.Sprintf] restricted to the verb [%s] over string operands,
    the only verb the package uses. *)
Fixpoint Sprintf (format : string) (args : list string) : string :=
  match format with
  | EmptyString => EmptyString
  | String "%"%char (String "s"%char rest) =>
      match args with
      | a :: args' => a +:+ Sprintf rest args'
      | [] => "%!s(MISSING)" +:+ Sprintf rest []
      end
  | String c rest => String c (Sprintf rest args)
  end.

(** [time.Duration] is an [int64] count of nanoseconds. *)
Definition Duration : Type := Z.
Definition wrap64 (z : Z) : Z := (z + 2 ^ 63) mod 2 ^ 64 - 2 ^ 63.
Definition Duration_mul (a b : Duration) : Duration := wrap64 (a * b).
Definition Nanosecond : Duration := 1.
Definition Microsecond : Duration := Duration_mul 1000 Nanosecond.
Definition Millisecond : Duration := Duration_mul 1000 Microsecond.
Definition Second : Duration := Duration_mul 1000 Millisecond.
Definition Minute : Duration := Duration_mul 60 Second.

(** [os.Getenv]: the value of the variable, empty when it is unset. *)
Definition Getenv (env : gmap string string) (key : string) : string :=
  default EmptyString (env !! key).

End GoRt.
Export GoRt.

Notation "'let*' x := m 'in' k" := (bind m (fun x => k))
  (at level 10, x name, m at level 100, k at level 200, only parsing).
Notation "'let*' ' pat := m 'in' k" :=
  (bind m (fun x => match x with pat => k end))
  (at level 10, pat pattern, m at level 100, k at level 200, only parsing).

(* ===================================================================== *)
(** * External collaborators *)
(* ===================================================================== *)

(** ** go.opentelemetry.io/otel: tracer, spans, contexts *)

Module trace.

(** A [context.Context] as far as tracing sees it: the chain of spans
    that are open in it.  A nil context is [None]. *)
Record Context : Type := { openSpans : list string }.
Definition Background : Context := {| openSpans := [] |}.

Inductive Code : Type := Unset | Error | Ok.

(** What a recording tracer has seen. *)
Inductive SpanEvent : Type :=
| SpanStart (name : string) (parent : option Context)
| SpanSetStatus (name : string) (code : Code) (description : string)
| SpanEnd (name : string).

(** A non-nil implementation of the interface [trace.Tracer]; a value
    of the interface type itself is an [option Tracer], nil being
    [None]. *)
Inductive Tracer : Type := recordingTracer (scope : string).

Record Span : Type := { spanName : string }.

End trace.

(** ** github.com/go-redis/redis: the client commands the package uses,
    against one Redis server.

    The server keeps, per key, a value and an optional expiry deadline
    on its own clock.  A command may fail on the way (connection refused,
    timeout): [faults] says, command by command, whether the next one
    fails and with which error; past its end every command is answered.
    [log] records the commands the client has issued. *)

Module redis.

Record Options : Type := { Addr : string }.
Record Client : Type := { opt : Options }.
Definition NewClient (o : Options) : Client := {| opt := o |}.

Inductive Cmd : Type :=
| EXISTS (key : string)
| SET (key : string) (value : bool) (expiration : Duration).

Record Entry : Type := { value : bool; deadline : option Z }.

Record Server : Type := {
  db : gmap string Entry;
  clock : Z;
  faults : list (option error);
  log : list Cmd
}.

Record IntCmd : Type := { IntVal : Z; IntErr : option error }.
Record StatusCmd : Type := { StatusVal : string; StatusErr : option error }.

(** A record is present until its deadline, if it has one, has passed: at
    the deadline itself the server still has it. *)
Definition live (s : Server) (key : string) : bool :=
  match db s !! key with
  | Some e =>
      match deadline e with
      | Some d => bool_decide (clock s <= d)
      | None => true
      end
  | None => false
  end.

(** The failure, if any, of the next command. *)
Definition next_fault (s : Server) : option error :=
  match faults s with
  | f :: _ => f
  | [] => None
  end.

(** The server once a command has been sent: one step of [faults]
    consumed, the command logged. *)
Definition sent (c : Cmd) (d : gmap string Entry) (s : Server) : Server :=
  {| db := d; clock := clock s; faults := tail (faults s);
     log := log s ++ [c] |}.

(** [client.Exists(key)]: how many of the keys exist; on a failure the
    command carries the error and the zero value. *)
Definition Exists (c : Client) (key : string) (s : Server)
  : IntCmd * Server :=
  match next_fault s with
  | Some e => ({| IntVal := 0; IntErr := Some e |}, sent (EXISTS key) (db s) s)
  | None =>
      ({| IntVal := if live s key then 1 else 0; IntErr := None |},
       sent (EXISTS key) (db s) s)
  end.

(** [client.Set(key, value, expiration)]: an unconditional write; a
    positive expiration becomes the record's time to live, otherwise
    the record does not expire. *)
Definition Set_ (c : Client) (key : string) (v : bool)
    (expiration : Duration) (s : Server) : StatusCmd * Server :=
  match next_fault s with
  | Some e =>
      ({| StatusVal := EmptyString; StatusErr := Some e |},
       sent (SET key v expiration) (db s) s)
  | None =>
      let e := {| value := v;
                  deadline := if 0 <? expiration
                              then Some (clock s + expiration)
                              else None |} in
      ({| StatusVal := "OK"; StatusErr := None |},
       sent (SET key v expiration) (<[key := e]> (db s)) s)
  end.

(** Time passing on the server. *)
Definition tick (d : Z) (s : Server) : Server :=
  {| db := db s; clock := clock s + d; faults := faults s; log := log s |}.

Definition empty : Server :=
  {| db := ∅; clock := 0; faults := []; log := [] |}.

End redis.

(** ** net/http *)

Module http.

Definition MethodGet : string := "GET".
Definition MethodHead : string := "HEAD".
Definition MethodPost : string := "POST".
Definition MethodPut : string := "PUT".
Definition MethodPatch : string := "PATCH".
Definition MethodDelete : string := "DELETE".
Definition MethodOptions : string := "OPTIONS".
Definition StatusOK : Z := 200.

(** A request: its method, its header (a map from canonical names to
    the values received under that name) and its context. *)
Record Request : Type := {
  Method : string;
  Header : gmap string (list string);
  Context : trace.Context
}.

(** [Header.Get]: the first value under the name, empty when there is
    none.  The name looked up by the package is already in canonical
    form. *)
Definition Header_Get (hd : gmap string (list string)) (key : string)
  : string :=
  match hd !! key with
  | Some (v :: _) => v
  | _ => EmptyString
  end.

(** A response writer: the status codes passed to [WriteHeader]. *)
Record ResponseWriter : Type := { written : list Z }.
Definition WriteHeader (rw : ResponseWriter) (code : Z) : ResponseWriter :=
  {| written := written rw ++ [code] |}.
Definition fresh : ResponseWriter := {| written := [] |}.

End http.

(* ===================================================================== *)
(** * The world a request runs in, and computations over it *)
(* ===================================================================== *)

(** What lies outside a request and is shared by all of them: the Redis
    server behind the client, what the tracer has recorded, and the
    requests that a recording downstream handler has been given. *)
Record World : Type := {
  backend : redis.Server;
  spans : list trace.SpanEvent;
  downstream : list http.Request
}.

Definition M (A : Type) : Type := World -> A * World.

#[global] Instance M_ret : MRet M := fun A a w => (a, w).
#[global] Instance M_bind : MBind M := fun A B k m w =>
  let (a, w') := m w in k a w'.

(** A client command, run against the world's server. *)
Definition command {A} (c : redis.Server -> A * redis.Server) : M A :=
  fun w =>
    let (a, s) := c (backend w) in
    (a, {| backend := s; spans := spans w; downstream := downstream w |}).

Definition record_span (e : trace.SpanEvent) : M unit :=
  fun w =>
    (tt, {| backend := backend w; spans := spans w ++ [e];
            downstream := downstream w |}).

(** [tracer.Start(ctx, name)]: a new span, and the context it is open in.
    The tracer modelled takes any context.  The tracers of
    go.opentelemetry.io/otel v1.11.2 need one that is not nil; a traced
    repository gets such a context from every handler that
    [NewIdempotencyHandler] builds, and what is stated below about a
    traced repository alone is stated for a context that is not nil. *)
Definition Tracer_Start (t : trace.Tracer) (ctx : option trace.Context)
    (name : string) : M (trace.Context * trace.Span) :=
  let* _ := record_span (trace.SpanStart name ctx) in
  mret ({| trace.openSpans :=
             match ctx with
             | Some c => trace.openSpans c ++ [name]
             | None => [name]
             end |},
        {| trace.spanName := name |}).

Definition Span_End (s : trace.Span) : M unit :=
  record_span (trace.SpanEnd (trace.spanName s)).

Definition Span_SetStatus (s : trace.Span) (code : trace.Code)
    (description : string) : M unit :=
  record_span (trace.SpanSetStatus (trace.spanName s) code description).

(** [defer cleanup] in front of the rest of a function body: the cleanup
    runs when the body returns. *)
Definition defer {A} (cleanup : M unit) (body : M A) : M A :=
  let* a := body in let* _ := cleanup in mret a.

(** An [http.Handler]: it may write to the response and act on the
    world. *)
Definition Handler : Type :=
  http.ResponseWriter -> http.Request -> M http.ResponseWriter.

(** A downstream handler that only records the requests it is given. *)
Definition recordingHandler : Handler :=
  fun rw h w =>
    (rw, {| backend := backend w; spans := spans w;
            downstream := downstream w ++ [h] |}).

(* ===================================================================== *)
(** * The repository (second part of IdempotencyHandler.go) *)
(* ===================================================================== *)

Definition IDEMP_HEDER : string := "Idempotency-Key".
Definition reqKey : string := "req:%s".

Definition tooManyArgumentsError (fnc : string) : error :=
  errors_New
    (Sprintf "%s : you passed in to many argumants into this function" [fnc]).

Record idempontencyRepoRedis : Type := {
  cli : redis.Client;
  repoTracer : option trace.Tracer
}.

(** The interface [IdempontencyRepo]: a value of it carries its two
    methods. *)
Record IdempontencyRepo : Type := {
  Exists : string -> option trace.Context -> M bool;
  Save : string -> option trace.Context -> M (string * option error)
}.

Definition constructKey (id : string) : string := Sprintf reqKey [id].

Definition repoExists (i : idempontencyRepoRedis) (id : string)
    (ctx : option trace.Context) : M bool :=
  match repoTracer i with
  | Some t =>
      let* '(_, span) := Tracer_Start t ctx "IdempontencyRepoRedis.Exists" in
      defer (Span_End span)
        (let* c := command (redis.Exists (cli i) (constructKey id)) in
         mret (redis.IntVal c =? 1))
  | None =>
      let* c := command (redis.Exists (cli i) (constructKey id)) in
      mret (redis.IntVal c =? 1)
  end.

Definition repoSave (i : idempontencyRepoRedis) (id : string)
    (ctx : option trace.Context) : M (string * option error) :=
  let key := constructKey id in
  match repoTracer i with
  | Some t =>
      let* '(_, span) := Tracer_Start t ctx "IdempontencyRepoRedis.Save" in
      defer (Span_End span)
        (let* c := command (redis.Set_ (cli i) key true (Duration_mul 3 Minute)) in
         match redis.StatusErr c with
         | Some err =>
             let* _ := Span_SetStatus span trace.Error err in
             mret (EmptyString, Some err)
         | None => mret (id, None)
         end)
  | None =>
      let* c := command (redis.Set_ (cli i) key true (Duration_mul 3 Minute)) in
      match redis.StatusErr c with
      | Some err => mret (EmptyString, Some err)
      | None => mret (id, None)
      end
  end.

(** [idempontencyRepoRedis] as a value of the interface. *)
Definition redisRepo (i : idempontencyRepoRedis) : IdempontencyRepo :=
  {| Exists := repoExists i; Save := repoSave i |}.

Definition envError : error :=
  errors_New "couldn't read .env variables for IDEMPOTENCE_REDIS_HOST,IDEMPOTENCE_REDIS_PORT. Please check if you provided them correctly".

(** [NewIdempotenceRepo(tracer ...trace.Tracer)], in a process whose
    environment is [env]. *)
Definition NewIdempotenceRepo (tracer : list (option trace.Tracer))
    (env : gmap string string) : Go (Result idempontencyRepoRedis) :=
  if bool_decide (1 < length tracer)%nat then
    mret (Failure (tooManyArgumentsError "NewIdempotenceRepo"))
  else
    let tracer :=
      if bool_decide (length tracer = 0%nat) then make None 1 else tracer in
    let host := Getenv env "IDEMPOTENCE_REDIS_HOST" in
    let port := Getenv env "IDEMPOTENCE_REDIS_PORT" in
    if String.eqb host "" || String.eqb port "" then
      mret (Failure envError)
    else
      let adr := Sprintf "%s:%s" [host; port] in
      let client := redis.NewClient {| redis.Addr := adr |} in
      let* t0 := index tracer 0 in
      mret (Value {| cli := client; repoTracer := t0 |}).

(* ===================================================================== *)
(** * The handler (first part of IdempotencyHandler.go) *)
(* ===================================================================== *)

Record IdempotencyHandlerImpl : Type := {
  repo : IdempontencyRepo;
  Tracer : option trace.Tracer
}.

(** The method test of the middleware. *)
Definition mutating (method : string) : bool :=
  String.eqb method http.MethodPost || String.eqb method http.MethodPut
  || String.eqb method http.MethodPatch || String.eqb method http.MethodDelete.

Definition NewIdempotencyHandler (tracer : list (option trace.Tracer))
    (env : gmap string string) : Go (Result IdempotencyHandlerImpl) :=
  if bool_decide (1 < length tracer)%nat then
    mret (Failure (tooManyArgumentsError "NewIdempotencyService"))
  else
    let tracer :=
      if bool_decide (length tracer = 0%nat) then make None 1 else tracer in
    let* t0 := index tracer 0 in
    let* r := NewIdempotenceRepo [t0] env in
    match r with
    | Failure err => mret (Failure err)
    | Value i =>
        let* t0' := index tracer 0 in
        mret (Value {| repo := redisRepo i; Tracer := t0' |})
    end.

(** The condition of the middleware's [if]: the header test and then,
    only when the header is not empty (Go's [&&] does not evaluate its
    right operand when the left one is false), the existence test. *)
Definition condition (r : IdempontencyRepo) (ctx : option trace.Context)
    (h : http.Request) : M bool :=
  if negb (String.eqb (http.Header_Get (http.Header h) IDEMP_HEDER) "")
  then Exists r (http.Header_Get (http.Header h) IDEMP_HEDER) ctx
  else mret false.

(** The [if] itself, which the source writes twice, with the span's
    context when the handler has a tracer and with a nil context when it
    has none: either the short circuit, or the save followed by the rest
    of the function, [next.ServeHTTP]. *)
Definition gate (r : IdempontencyRepo) (ctx : option trace.Context)
    (next : Handler) : Handler :=
  fun rw h =>
    let* seen := condition r ctx h in
    if seen then
      (mret (http.WriteHeader rw http.StatusOK) : M http.ResponseWriter)
    else
      let* _ := Save r (http.Header_Get (http.Header h) IDEMP_HEDER) ctx in
      next rw h.

Definition MiddlewareIdempotency (handler : IdempotencyHandlerImpl)
    (next : Handler) : Handler :=
  fun rw h =>
    if mutating (http.Method h) then
      match Tracer handler with
      | Some t =>
          let* '(ctx, span) := Tracer_Start t (Some (http.Context h))
                           "IdempotencyHandler.MiddlewareIdempotency" in
          defer (Span_End span) (gate (repo handler) (Some ctx) next rw h)
      | None => gate (repo handler) None next rw h
      end
    else next rw h.

(* ===================================================================== *)
(** * The earlier handler (idempontecyService.go) *)
(* ===================================================================== *)

Module Service.

(** No slice is made for an empty argument list here: [tracer[0]] is
    evaluated as it stands. *)
Definition NewIdempotencyHandler (tracer : list (option trace.Tracer))
    (env : gmap string string) : Go (Result IdempotencyHandlerImpl) :=
  if bool_decide (1 < length tracer)%nat then
    mret (Failure (tooManyArgumentsError "NewIdempotencyService"))
  else
    let* t0 := index tracer 0 in
    let* r := NewIdempotenceRepo [t0] env in
    match r with
    | Failure err => mret (Failure err)
    | Value i =>
        let* t0' := index tracer 0 in
        mret (Value {| repo := redisRepo i; Tracer := t0' |})
    end.

(** The tracer is used without a nil test: a method call on a nil
    interface value panics. *)
Definition MiddlewareIdempotency (service : IdempotencyHandlerImpl)
    (next : Handler)
    : http.ResponseWriter -> http.Request -> M (Go http.ResponseWriter) :=
  fun rw h =>
    if mutating (http.Method h) then
      match Tracer service with
      | Some t =>
          let* '(ctx, span) :=
            Tracer_Start t (Some (http.Context h))
              "IdempotencyHandler.MiddlewareIdempotency" in
          let* rw' :=
            defer (Span_End span) (gate (repo service) (Some ctx) next rw h) in
          mret (Ret rw')
      | None => mret (Panic "invalid memory address or nil pointer dereference")
      end
    else
      let* rw' := next rw h in
      mret (Ret rw').

End Service.

(* ===================================================================== *)
(** * Requests in flight *)
(* ===================================================================== *)

(** net/http serves every request on a goroutine of its own, and every
    repository call is a round trip to the server, so the handler bodies
    of two requests interleave between their calls.  A request in flight
    is cut where the condition of the middleware's [if] has been
    evaluated: before it ([Arrived]), after it ([Tested], with whatever
    the condition has found), and once the function has returned. *)
Inductive Thread : Type :=
| Arrived (rw : http.ResponseWriter) (h : http.Request)
| Tested (rw : http.ResponseWriter) (h : http.Request)
    (span : option trace.Span) (ctx : option trace.Context) (seen : bool)
| Returned (rw : http.ResponseWriter).

Definition end_span (span : option trace.Span) : M unit :=
  match span with
  | Some s => Span_End s
  | None => mret tt
  end.

(** One uninterrupted piece of the handler body. *)
Definition step (handler : IdempotencyHandlerImpl) (next : Handler)
    (t : Thread) : M Thread :=
  match t with
  | Arrived rw h =>
      if mutating (http.Method h) then
        match Tracer handler with
        | Some tr =>
            let* '(ctx, span) :=
              Tracer_Start tr (Some (http.Context h))
                "IdempotencyHandler.MiddlewareIdempotency" in
            let* seen := condition (repo handler) (Some ctx) h in
            mret (Tested rw h (Some span) (Some ctx) seen)
        | None =>
            let* seen := condition (repo handler) None h in
            mret (Tested rw h None None seen)
        end
      else
        let* rw' := next rw h in
        mret (Returned rw')
  | Tested rw h span ctx true =>
      let* _ := end_span span in
      mret (Returned (http.WriteHeader rw http.StatusOK))
  | Tested rw h span ctx false =>
      let* _ := Save (repo handler)
                  (http.Header_Get (http.Header h) IDEMP_HEDER) ctx in
      let* rw' := next rw h in
      let* _ := end_span span in
      mret (Returned rw')
  | Returned rw => mret (Returned rw)
  end.

(** The requests in flight advance as the schedule names them. *)
Fixpoint interleave (handler : IdempotencyHandlerImpl) (next : Handler)
    (schedule : list nat) (ts : list Thread) : M (list Thread) :=
  match schedule with
  | [] => mret ts
  | i :: schedule' =>
      match ts !! i with
      | Some t =>
          let* t' := step handler next t in
          interleave handler next schedule' (<[i := t']> ts)
      | None => interleave handler next schedule' ts
      end
  end.

(** Time passing in the world. *)
Definition elapse (d : Z) : M unit :=
  fun w =>
    (tt, {| backend := redis.tick d (backend w); spans := spans w;
            downstream := downstream w |}).

(** Requests served one after the other, each on a response writer of
    its own, each after a delay on the server's clock. *)
Fixpoint serve (handler : IdempotencyHandlerImpl) (next : Handler)
    (arrivals : list (Z * http.Request)) : M (list http.ResponseWriter) :=
  match arrivals with
  | [] => mret []
  | (d, h) :: arrivals' =>
      let* _ := elapse d in
      let* rw := MiddlewareIdempotency handler next http.fresh h in
      let* rws := serve handler next arrivals' in
      mret (rw :: rws)
  end.

(** What a run of requests is judged by. *)
Definition forwarded (w : World) : nat := length (downstream w).

Definition short_circuited (rw : http.ResponseWriter) : bool :=
  bool_decide (http.written rw = [http.StatusOK]).

Definition returned_writers (ts : list Thread) : list http.ResponseWriter :=
  omap (fun t => match t with Returned rw => Some rw | _ => None end) ts.

Definition count_short_circuited (rws : list http.ResponseWriter) : nat :=
  length (List.filter short_circuited rws).

Definition initial : World :=
  {| backend := redis.empty; spans := []; downstream := [] |}.

(** The commands a computation has sent, given the world before and
    after it. *)
Definition commands_since (w w' : World) : list redis.Cmd :=
  drop (length (redis.log (backend w))) (redis.log (backend w')).

(* ===================================================================== *)
(** * Observations on a run *)
(* ===================================================================== *)

(** What an existence check answers: nothing on a failure. *)
Definition reported (s : redis.Server) (key : string) : bool :=
  match redis.next_fault s with
  | Some _ => false
  | None => redis.live s key
  end.

(** The idempotency token of a request, as the middleware reads it. *)
Definition token (h : http.Request) : string :=
  http.Header_Get (http.Header h) IDEMP_HEDER.

(** A handler over the Redis repository. *)
Definition redisHandler (i : idempontencyRepoRedis) (tr : option trace.Tracer)
  : IdempotencyHandlerImpl := {| repo := redisRepo i; Tracer := tr |}.

(** The server after one claim attempt of the gate for [tok]. *)
Definition after_gate (c : redis.Client) (tok : string) (s : redis.Server)
  : redis.Server :=
  let key := constructKey tok in
  if String.eqb tok "" then
    (redis.Set_ c key true (Duration_mul 3 Minute) s).2
  else if reported s key then (redis.Exists c key s).2
  else (redis.Set_ c key true (Duration_mul 3 Minute) (redis.Exists c key s).2).2.

(** Whether the gate lets the request through to [next]. *)
Definition passes (tok : string) (s : redis.Server) : bool :=
  String.eqb tok "" || negb (reported s (constructKey tok)).

(** The commands one pass through the gate sends. *)
Definition gate_commands (tok : string) (s : redis.Server) : list redis.Cmd :=
  let key := constructKey tok in
  if String.eqb tok "" then [redis.SET key true (Duration_mul 3 Minute)]
  else if reported s key then [redis.EXISTS key]
  else [redis.EXISTS key; redis.SET key true (Duration_mul 3 Minute)].

(** The record a successful save leaves. *)
Definition claim_record (s : redis.Server) : redis.Entry :=
  {| redis.value := true;
     redis.deadline := Some (redis.clock s + Duration_mul 3 Minute) |}.

(** The error, if any, that one claim attempt for [key] meets at the
    server: on the existence check, or else on the write that follows a
    negative answer. *)
Definition claim_error (s : redis.Server) (key : string) : option error :=
  match redis.next_fault s with
  | Some e => Some e
  | None =>
      if redis.live s key then None
      else redis.next_fault (redis.sent (redis.EXISTS key) (redis.db s) s)
  end.

(** The time a run of arrivals takes. *)
Definition total_delay (arrivals : list (Z * http.Request)) : Z :=
  foldr (fun a acc => a.1 + acc) 0 arrivals.





(** A record with time left on it, more than the waits to come. *)
Definition remains (key : string) (rest : Z) (s : redis.Server) : Prop :=
  exists e dl, redis.db s !! key = Some e /\ redis.deadline e = Some dl
               /\ redis.clock s + rest < dl.

(** One of several attempts on the token [tok]: a request of a mutating
    method that carries it, arriving after a delay. *)
Definition attempt_on (tok : string) (a : Z * http.Request) : Prop :=
  0 <= a.1 /\ mutating (http.Method a.2) = true /\ token a.2 = tok.

(** The span events a computation has recorded, given the world before
    and after it. *)
Definition spans_since (w w' : World) : list trace.SpanEvent :=
  drop (length (spans w)) (spans w').

(** Span events that open and close like brackets: [open] names the spans
    started and not yet ended, innermost first; a status is set on the
    innermost open span only, and in the end no span is left open. *)
Fixpoint bracketed (open : list string) (evs : list trace.SpanEvent) : bool :=
  match evs with
  | [] => match open with [] => true | _ :: _ => false end
  | trace.SpanStart n _ :: evs' => bracketed (n :: open) evs'
  | trace.SpanSetStatus n _ _ :: evs' =>
      match open with
      | o :: _ => String.eqb o n && bracketed open evs'
      | [] => false
      end
  | trace.SpanEnd n :: evs' =>
      match open with
      | o :: open' => String.eqb o n && bracketed open' evs'
      | [] => false
      end
  end.

(** A request of a mutating method that carries no token. *)
Definition unkeyed (a : Z * http.Request) : Prop :=
  mutating (http.Method a.2) = true /\ token a.2 = "".

(* ===================================================================== *)
(** * Sample inputs *)
(* ===================================================================== *)

Definition configured : gmap string string :=
  <["IDEMPOTENCE_REDIS_HOST" := "localhost"]>
    (<["IDEMPOTENCE_REDIS_PORT" := "6379"]> ∅).

Definition localClient : redis.Client :=
  redis.NewClient {| redis.Addr := "localhost:6379" |}.

Definition untracedRepo : idempontencyRepoRedis :=
  {| cli := localClient; repoTracer := None |}.

Definition request (method : string) (hd : gmap string (list string))
  : http.Request :=
  {| http.Method := method; http.Header := hd;
     http.Context := trace.Background |}.

Definition keyed (tok : string) : gmap string (list string) :=
  {[ IDEMP_HEDER := [tok] ]}.

(** Three attempts on the token [abc]: at once, ten seconds later, two
    minutes after that. *)
Definition three_attempts : list (Z * http.Request) :=
  [(0, request http.MethodPost (keyed "abc"));
   (10 * Second, request http.MethodPut (keyed "abc"));
   (2 * Minute, request http.MethodPost (keyed "abc"))].

Definition unreachable : error := "dial tcp: connection refused".


(** A world whose server fails the next two commands. *)
Definition outage : World :=
  {| backend := {| redis.db := ∅; redis.clock := 0;
                   redis.faults := [Some unreachable; Some unreachable];
                   redis.log := [] |};
     spans := []; downstream := [] |}.

Definition otel : trace.Tracer := trace.recordingTracer "otel".

Definition tracedRepo : idempontencyRepoRedis :=
  {| cli := localClient; repoTracer := Some otel |}.

(** A world whose server holds a record of [req:abc] with a minute and a
    half left. *)
Definition claimed : World :=
  {| backend := {| redis.db :=
                     {[ "req:abc" := {| redis.value := true;
                                        redis.deadline := Some (90 * Second) |} ]};
                   redis.clock := 0; redis.faults := []; redis.log := [] |};
     spans := []; downstream := [] |}.

(* ===================================================================== *)
(** * Basic facts *)
(* ===================================================================== *)

(** Settles the tests on the number of tracer arguments. *)
Ltac count_tracers :=
  cbn [length];
  repeat first
    [ rewrite bool_decide_eq_true_2 by (cbn; lia)
    | rewrite bool_decide_eq_false_2 by (cbn; lia) ].

Lemma append_empty (s : string) : s +:+ "" = s.
Proof.
  induction s as [|c s IH]; [reflexivity|].
  change (String c (s +:+ "") = String c s). by rewrite IH.
Qed.

Lemma constructKey_prefix (id : string) : constructKey id = "req:" +:+ id.
Proof. unfold constructKey, reqKey. simpl. by rewrite append_empty. Qed.

Lemma constructKey_inj (id id' : string) :
  constructKey id = constructKey id' -> id = id'.
Proof.
  rewrite !constructKey_prefix.
  change ("req:" +:+ id) with (String "r" (String "e" (String "q" (String ":" id)))).
  change ("req:" +:+ id') with (String "r" (String "e" (String "q" (String ":" id')))).
  congruence.
Qed.

Lemma three_minutes : Duration_mul 3 Minute = 180000000000.
Proof. reflexivity. Qed.

Lemma mutating_true (m : string) :
  mutating m = true <->
  m = http.MethodPost \/ m = http.MethodPut \/ m = http.MethodPatch
  \/ m = http.MethodDelete.
Proof.
  unfold mutating. rewrite !orb_true_iff, !String.eqb_eq. tauto.
Qed.

Lemma mutating_false (m : string) :
  m <> http.MethodPost -> m <> http.MethodPut -> m <> http.MethodPatch ->
  m <> http.MethodDelete -> mutating m = false.
Proof.
  intros. destruct (mutating m) eqn:E; [|reflexivity].
  apply mutating_true in E. tauto.
Qed.

(** ** The server *)

Lemma Exists_value c key s :
  (redis.IntVal (redis.Exists c key s).1 =? 1) = reported s key.
Proof.
  unfold redis.Exists, reported.
  destruct (redis.next_fault s); simpl; [reflexivity|].
  by destruct (redis.live s key).
Qed.

Lemma Exists_server c key s :
  (redis.Exists c key s).2 = redis.sent (redis.EXISTS key) (redis.db s) s.
Proof. unfold redis.Exists. by destruct (redis.next_fault s). Qed.

Lemma Set_error c key v d s :
  redis.StatusErr (redis.Set_ c key v d s).1 = redis.next_fault s.
Proof. unfold redis.Set_. by destruct (redis.next_fault s). Qed.

Lemma Set_log c key v d s :
  redis.log (redis.Set_ c key v d s).2 = redis.log s ++ [redis.SET key v d].
Proof. unfold redis.Set_. by destruct (redis.next_fault s). Qed.

Lemma Set_clock c key v d s :
  redis.clock (redis.Set_ c key v d s).2 = redis.clock s.
Proof. unfold redis.Set_. by destruct (redis.next_fault s). Qed.

Lemma Set_faults c key v d s :
  redis.faults (redis.Set_ c key v d s).2 = tail (redis.faults s).
Proof. unfold redis.Set_. by destruct (redis.next_fault s). Qed.

Lemma Set_db c key v d s :
  redis.db (redis.Set_ c key v d s).2 =
  match redis.next_fault s with
  | Some _ => redis.db s
  | None =>
      <[key := {| redis.value := v;
                  redis.deadline := if 0 <? d then Some (redis.clock s + d)
                                    else None |}]> (redis.db s)
  end.
Proof. unfold redis.Set_. by destruct (redis.next_fault s). Qed.

(** ** The repository, method by method: the tracer only adds spans. *)

Lemma repoExists_run i id ctx w :
  (repoExists i id ctx w).1 = reported (backend w) (constructKey id)
  /\ backend (repoExists i id ctx w).2 =
     redis.sent (redis.EXISTS (constructKey id)) (redis.db (backend w)) (backend w)
  /\ downstream (repoExists i id ctx w).2 = downstream w.
Proof.
  unfold repoExists, defer, command, bind, mbind, M_bind, mret, M_ret.
  pose proof (Exists_value (cli i) (constructKey id) (backend w)) as Hv.
  pose proof (Exists_server (cli i) (constructKey id) (backend w)) as Hs.
  destruct (repoTracer i); simpl;
    destruct (redis.Exists (cli i) (constructKey id) (backend w)); simpl in *;
    auto.
Qed.

Lemma repoSave_run i id ctx w :
  (repoSave i id ctx w).1 =
    match redis.next_fault (backend w) with
    | Some err => (EmptyString, Some err)
    | None => (id, None)
    end
  /\ backend (repoSave i id ctx w).2 =
     (redis.Set_ (cli i) (constructKey id) true (Duration_mul 3 Minute)
        (backend w)).2
  /\ downstream (repoSave i id ctx w).2 = downstream w.
Proof.
  unfold repoSave, defer, command, bind, mbind, M_bind, mret, M_ret.
  pose proof (Set_error (cli i) (constructKey id) true (Duration_mul 3 Minute)
                (backend w)) as He.
  destruct (repoTracer i); simpl;
    destruct (redis.Set_ (cli i) (constructKey id) true (Duration_mul 3 Minute)
                (backend w)) as [c s]; simpl in *; rewrite <- He;
    destruct (redis.StatusErr c); simpl; auto.
Qed.

#[global] Arguments constructKey : simpl never.
#[global] Arguments Duration_mul : simpl never.

(** ** The middleware over the Redis repository *)

Lemma gate_run i ctx rw h w :
  let r := gate (redisRepo i) ctx recordingHandler rw h w in
  r.1 = (if passes (token h) (backend w) then rw
         else http.WriteHeader rw http.StatusOK)
  /\ downstream r.2 = (if passes (token h) (backend w)
                       then downstream w ++ [h] else downstream w)
  /\ backend r.2 = after_gate (cli i) (token h) (backend w).
Proof.
  unfold gate, condition, passes, after_gate, bind, mbind, M_bind.
  fold (token h).
  cbn [Exists Save redisRepo].
  destruct (String.eqb (token h) "") eqn:Etok; cbn [negb orb].
  - pose proof (repoSave_run i (token h) ctx w) as (_ & Hb & Hd).
    unfold mret, M_ret.
    destruct (repoSave i (token h) ctx w) as [res w1]; cbn in *.
    by rewrite Hb, Hd.
  - pose proof (repoExists_run i (token h) ctx w) as (Hv & Hb & Hd).
    destruct (repoExists i (token h) ctx w) as [seen w1]; cbn in Hv, Hb, Hd.
    rewrite Exists_server. subst seen.
    destruct (reported (backend w) (constructKey (token h))); cbn.
    + by rewrite Hb, Hd.
    + pose proof (repoSave_run i (token h) ctx w1) as (_ & Hb' & Hd').
      destruct (repoSave i (token h) ctx w1) as [res w2]; cbn in *.
      by rewrite Hb', Hd', Hb, Hd.
Qed.

Lemma middleware_run i tr rw h w :
  let r := MiddlewareIdempotency (redisHandler i tr) recordingHandler rw h w in
  if mutating (http.Method h) then
    r.1 = (if passes (token h) (backend w) then rw
           else http.WriteHeader rw http.StatusOK)
    /\ downstream r.2 = (if passes (token h) (backend w)
                         then downstream w ++ [h] else downstream w)
    /\ backend r.2 = after_gate (cli i) (token h) (backend w)
  else
    r.1 = rw /\ downstream r.2 = downstream w ++ [h]
    /\ backend r.2 = backend w.
Proof.
  unfold MiddlewareIdempotency. cbn [Tracer repo redisHandler].
  destruct (mutating (http.Method h)); [|by cbn].
  destruct tr as [t|].
  - unfold defer, Tracer_Start, record_span, Span_End.
    unfold bind, mbind, M_bind, mret, M_ret. cbn.
    match goal with |- context [gate ?r ?c ?n ?rw ?h ?w0] =>
      pose proof (gate_run i c rw h w0) as (H1 & H2 & H3);
      destruct (gate r c n rw h w0) as [rw' w'] end.
    cbn in *. auto.
  - apply gate_run.
Qed.

Lemma after_gate_log c tok s :
  redis.log (after_gate c tok s) = redis.log s ++ gate_commands tok s.
Proof.
  unfold after_gate, gate_commands.
  destruct (String.eqb tok ""); [apply Set_log|].
  destruct (reported s (constructKey tok)).
  - by rewrite Exists_server.
  - rewrite Set_log, Exists_server. cbn. by rewrite <- app_assoc.
Qed.

Lemma after_gate_clock c tok s :
  redis.clock (after_gate c tok s) = redis.clock s.
Proof.
  unfold after_gate.
  destruct (String.eqb tok ""); [apply Set_clock|].
  destruct (reported s (constructKey tok));
    [|rewrite Set_clock]; by rewrite Exists_server.
Qed.

Lemma Set_db_three_minutes c key s k :
  redis.db (redis.Set_ c key true (Duration_mul 3 Minute) s).2 !! k =
    redis.db s !! k
  \/ k = key /\
     redis.db (redis.Set_ c key true (Duration_mul 3 Minute) s).2 !! k =
       Some (claim_record s).
Proof.
  rewrite Set_db. destruct (redis.next_fault s); [by left|].
  destruct (decide (k = key)) as [->|Hne].
  - right. split; [done|]. by rewrite lookup_insert_eq.
  - left. by rewrite lookup_insert_ne.
Qed.

Lemma after_gate_db c tok s k :
  redis.db (after_gate c tok s) !! k = redis.db s !! k
  \/ k = constructKey tok /\
     redis.db (after_gate c tok s) !! k = Some (claim_record s).
Proof.
  unfold after_gate.
  destruct (String.eqb tok ""); [apply Set_db_three_minutes|].
  destruct (reported s (constructKey tok)).
  - left. by rewrite Exists_server.
  - pose proof (Set_db_three_minutes c (constructKey tok)
                  (redis.Exists c (constructKey tok) s).2 k) as H.
    rewrite Exists_server in *. exact H.
Qed.

Lemma commands_since_app w w' l :
  redis.log (backend w') = redis.log (backend w) ++ l ->
  commands_since w w' = l.
Proof. unfold commands_since. intros ->. by rewrite drop_app_length. Qed.

Lemma middleware_commands i tr rw h w :
  commands_since w
    (MiddlewareIdempotency (redisHandler i tr) recordingHandler rw h w).2 =
  if mutating (http.Method h) then gate_commands (token h) (backend w) else [].
Proof.
  apply commands_since_app.
  pose proof (middleware_run i tr rw h w) as H. cbn zeta in H.
  destruct (mutating (http.Method h)).
  - destruct H as (_ & _ & ->). apply after_gate_log.
  - destruct H as (_ & _ & ->). by rewrite app_nil_r.
Qed.

(** The middleware adds no span when neither the handler nor the
    repository has a tracer. *)
Lemma untraced_no_span (c : redis.Client) (next : Handler) rw h w :
  (forall rw0 h0 w0, spans (next rw0 h0 w0).2 = spans w0) ->
  spans (MiddlewareIdempotency
           (redisHandler {| cli := c; repoTracer := None |} None)
           next rw h w).2 = spans w.
Proof.
  intros Hnext.
  unfold MiddlewareIdempotency, gate, condition, repoExists, repoSave.
  cbn [Tracer repo redisHandler Exists Save redisRepo repoExists repoSave
       repoTracer cli].
  destruct (mutating (http.Method h)); [|apply Hnext].
  unfold command. unfold bind, mbind, M_bind, mret, M_ret.
  destruct (negb _).
  - destruct (redis.Exists _ _ _) as [a s]. destruct (redis.IntVal a =? 1); [done|].
    destruct (redis.Set_ _ _ _ _ _) as [a' s']. cbn.
    destruct (redis.StatusErr a'); by rewrite Hnext.
  - destruct (redis.Set_ _ _ _ _ _) as [a' s']. cbn.
    destruct (redis.StatusErr a'); by rewrite Hnext.
Qed.

(* ===================================================================== *)
(** * The gate: which requests it touches *)
(* ===================================================================== *)

(** C5. A request whose method is none of POST, PUT, PATCH, DELETE is
    handed to the downstream handler as it is, whatever its header says:
    the middleware's whole effect is the downstream handler's, run in the
    unchanged world, so no store command is sent and no span is opened. *)
Theorem readonly_methods_bypass (handler : IdempotencyHandlerImpl)
    (next : Handler) (rw : http.ResponseWriter) (h : http.Request) (w : World) :
  http.Method h <> http.MethodPost ->
  http.Method h <> http.MethodPut ->
  http.Method h <> http.MethodPatch ->
  http.Method h <> http.MethodDelete ->
  MiddlewareIdempotency handler next rw h w = next rw h w
  /\ (let r := MiddlewareIdempotency handler recordingHandler rw h w in
      r.1 = rw /\ downstream r.2 = downstream w ++ [h]
      /\ backend r.2 = backend w /\ spans r.2 = spans w
      /\ commands_since w r.2 = []).
Proof.
  intros H1 H2 H3 H4.
  assert (forall n, MiddlewareIdempotency handler n rw h w = n rw h w) as E.
  { intros n. unfold MiddlewareIdempotency.
    by rewrite (mutating_false _ H1 H2 H3 H4). }
  split; [apply E|]. cbn zeta. rewrite E. cbn.
  repeat split; try reflexivity.
  apply commands_since_app. cbn. by rewrite app_nil_r.
Qed.

Lemma readonly_methods_bypass_witness :
  let h := request http.MethodGet (keyed "abc") in
  let handler := redisHandler untracedRepo None in
  MiddlewareIdempotency handler recordingHandler http.fresh h initial =
    recordingHandler http.fresh h initial
  /\ (let r := MiddlewareIdempotency handler recordingHandler http.fresh h
                 initial in
      r.1 = http.fresh /\ downstream r.2 = downstream initial ++ [h]
      /\ backend r.2 = backend initial /\ spans r.2 = spans initial
      /\ commands_since initial r.2 = []).
Proof.
  apply (readonly_methods_bypass (redisHandler untracedRepo None)
           recordingHandler http.fresh (request http.MethodGet (keyed "abc"))
           initial); discriminate.
Defined.

(** A token the store does not report: the request passes, after the
    existence check and the SET. *)
Lemma unreported_token_passes (i : idempontencyRepoRedis)
    (tr : option trace.Tracer) (rw : http.ResponseWriter) (h : http.Request)
    (w : World) :
  mutating (http.Method h) = true ->
  token h <> "" ->
  reported (backend w) (constructKey (token h)) = false ->
  let r := MiddlewareIdempotency (redisHandler i tr) recordingHandler rw h w in
  r.1 = rw
  /\ downstream r.2 = downstream w ++ [h]
  /\ backend r.2 =
       (redis.Set_ (cli i) (constructKey (token h)) true (Duration_mul 3 Minute)
          (redis.Exists (cli i) (constructKey (token h)) (backend w)).2).2
  /\ commands_since w r.2 =
       [redis.EXISTS (constructKey (token h));
        redis.SET (constructKey (token h)) true (Duration_mul 3 Minute)].
Proof.
  intros Hm Htok Hrep r.
  pose proof (middleware_run i tr rw h w) as Hrun.
  pose proof (middleware_commands i tr rw h w) as Hcmd.
  fold r in Hrun, Hcmd. rewrite Hm in Hrun, Hcmd.
  unfold passes, gate_commands, after_gate in *.
  apply String.eqb_neq in Htok. rewrite Htok, Hrep in *. cbn in Hrun.
  tauto.
Qed.

(** A token the store reports: the request is answered 200 and goes no
    further. *)
Lemma reported_token_stops (i : idempontencyRepoRedis)
    (tr : option trace.Tracer) (rw : http.ResponseWriter) (h : http.Request)
    (w : World) :
  mutating (http.Method h) = true ->
  token h <> "" ->
  reported (backend w) (constructKey (token h)) = true ->
  let r := MiddlewareIdempotency (redisHandler i tr) recordingHandler rw h w in
  r.1 = http.WriteHeader rw http.StatusOK
  /\ downstream r.2 = downstream w
  /\ backend r.2 =
       (redis.Exists (cli i) (constructKey (token h)) (backend w)).2.
Proof.
  intros Hm Htok Hrep r.
  pose proof (middleware_run i tr rw h w) as Hrun.
  fold r in Hrun. rewrite Hm in Hrun.
  unfold passes, after_gate in *.
  apply String.eqb_neq in Htok. rewrite Htok, Hrep in *. cbn in Hrun.
  tauto.
Qed.

(** C2. A POST, PUT, PATCH or DELETE with a non-empty Idempotency-Key:
    when the store reports the token as claimed (what [Exists] returns,
    see [repoExists_run]) the response is 200 and the downstream handler is
    not called; otherwise the middleware saves the token (one existence
    check, then one SET of the token's key; the record is there afterwards
    when the server has taken the SET) and calls the downstream handler
    exactly once, writing nothing itself. *)
Theorem gate_decision (i : idempontencyRepoRedis) (tr : option trace.Tracer)
    (rw : http.ResponseWriter) (h : http.Request) (w : World) :
  mutating (http.Method h) = true ->
  token h <> "" ->
  let key := constructKey (token h) in
  let r := MiddlewareIdempotency (redisHandler i tr) recordingHandler rw h w in
  if reported (backend w) key then
    r.1 = http.WriteHeader rw http.StatusOK
    /\ downstream r.2 = downstream w
  else
    r.1 = rw
    /\ downstream r.2 = downstream w ++ [h]
    /\ commands_since w r.2 =
         [redis.EXISTS key; redis.SET key true (Duration_mul 3 Minute)]
    /\ (redis.next_fault (redis.Exists (cli i) key (backend w)).2 = None ->
        redis.live (backend r.2) key = true).
Proof.
  intros Hm Htok key r. subst key r.
  destruct (reported (backend w) (constructKey (token h))) eqn:Hrep.
  - destruct (reported_token_stops i tr rw h w Hm Htok Hrep) as (H1 & H2 & _).
    by split.
  - destruct (unreported_token_passes i tr rw h w Hm Htok Hrep)
      as (H1 & H2 & H3 & H4).
    repeat split; try assumption.
    intros Hok. rewrite H3. unfold redis.live.
    rewrite Set_db, Hok, lookup_insert_eq, Set_clock. cbn.
    rewrite three_minutes. cbn. apply bool_decide_eq_true. lia.
Qed.

Lemma gate_decision_witness :
  let h := request http.MethodPost (keyed "abc") in
  let key := constructKey (token h) in
  let r := MiddlewareIdempotency (redisHandler untracedRepo None)
             recordingHandler http.fresh h initial in
  mutating (http.Method h) = true /\ token h <> ""
  /\ r.1 = http.fresh
  /\ downstream r.2 = downstream initial ++ [h]
  /\ commands_since initial r.2 =
       [redis.EXISTS key; redis.SET key true (Duration_mul 3 Minute)]
  /\ (redis.next_fault (redis.Exists (cli untracedRepo) key (backend initial)).2
        = None -> redis.live (backend r.2) key = true).
Proof.
  split; [reflexivity|]. split; [discriminate|].
  exact (gate_decision untracedRepo None http.fresh
           (request http.MethodPost (keyed "abc")) initial
           eq_refl ltac:(discriminate)).
Defined.

(** C3, as the code has it.  A POST without an Idempotency-Key goes to the
    downstream handler, once, and no existence check is made; but the
    middleware's [else] branch also covers the empty token, so [Save] is
    called with it and a SET of the bare key [req:] reaches the store. *)
Theorem missing_key_reaches_store :
  let h := request http.MethodPost ∅ in
  let r := MiddlewareIdempotency (redisHandler untracedRepo None)
             recordingHandler http.fresh h initial in
  NewIdempotencyHandler [] configured =
    Ret (Value (redisHandler untracedRepo None))
  /\ token h = ""
  /\ r.1 = http.fresh
  /\ downstream r.2 = [h]
  /\ commands_since initial r.2 = [redis.SET "req:" true 180000000000]
  /\ redis.live (backend r.2) "req:" = true.
Proof. vm_compute. repeat split; reflexivity. Qed.

(** The same for every handler over the Redis repository and every
    request of a mutating method whose token is empty. *)
Lemma empty_token_saved (i : idempontencyRepoRedis) (tr : option trace.Tracer)
    (rw : http.ResponseWriter) (h : http.Request) (w : World) :
  mutating (http.Method h) = true ->
  token h = "" ->
  let r := MiddlewareIdempotency (redisHandler i tr) recordingHandler rw h w in
  r.1 = rw /\ downstream r.2 = downstream w ++ [h]
  /\ commands_since w r.2 = [redis.SET "req:" true (Duration_mul 3 Minute)].
Proof.
  intros Hm Htok r.
  pose proof (middleware_run i tr rw h w) as Hrun.
  pose proof (middleware_commands i tr rw h w) as Hcmd.
  fold r in Hrun, Hcmd. rewrite Hm in Hrun, Hcmd.
  unfold passes, gate_commands in *. rewrite Htok in *. cbn in Hrun.
  tauto.
Qed.

(** The record under [req:] is never consulted: the answer of the gate for
    a request depends on the store only through the key of a non-empty
    token, which is never [req:]. *)
Lemma bare_key_unread (tok : string) : tok <> "" -> constructKey tok <> "req:".
Proof.
  intros Hne E. apply Hne. apply constructKey_inj.
  rewrite E. reflexivity.
Qed.

(** C6. Whatever the request, every SET the middleware sends carries the
    value [true] and an expiration of exactly three minutes
    (180 000 000 000 ns), and every record of the store that differs after
    the request is one that expires three minutes after the server's time
    at the request. *)
Theorem claim_ttl_three_minutes (i : idempontencyRepoRedis)
    (tr : option trace.Tracer) (rw : http.ResponseWriter) (h : http.Request)
    (w : World) :
  let r := MiddlewareIdempotency (redisHandler i tr) recordingHandler rw h w in
  (forall k v d, redis.SET k v d ∈ commands_since w r.2 ->
     v = true /\ d = 3 * 60 * 1000000000)
  /\ (forall k, redis.db (backend r.2) !! k <> redis.db (backend w) !! k ->
        redis.db (backend r.2) !! k =
          Some {| redis.value := true;
                  redis.deadline :=
                    Some (redis.clock (backend w) + 3 * 60 * 1000000000) |}).
Proof.
  intros r. split.
  - intros k v d Hin. unfold r in Hin. rewrite middleware_commands in Hin.
    destruct (mutating (http.Method h)); [|by apply elem_of_nil in Hin].
    unfold gate_commands in Hin. rewrite three_minutes in Hin.
    destruct (String.eqb (token h) ""); [|destruct (reported _ _)];
      repeat (apply elem_of_cons in Hin as [Hin|Hin];
              [inversion Hin; by subst|]);
      by apply elem_of_nil in Hin.
  - intros k Hk.
    pose proof (middleware_run i tr rw h w) as Hrun. fold r in Hrun.
    destruct (mutating (http.Method h)).
    + destruct Hrun as (_ & _ & Hb). rewrite Hb in *.
      destruct (after_gate_db (cli i) (token h) (backend w) k) as [E|[_ E]];
        [congruence|].
      rewrite E. unfold claim_record. by rewrite three_minutes.
    + destruct Hrun as (_ & _ & Hb). by rewrite Hb in Hk.
Qed.

(* ===================================================================== *)
(** * Construction *)
(* ===================================================================== *)

Lemma Getenv_empty (env : gmap string string) (key : string) :
  env !! key = None \/ env !! key = Some "" -> Getenv env key = "".
Proof. unfold Getenv. by intros [-> | ->]. Qed.

Lemma NewIdempotenceRepo_unconfigured (t : option trace.Tracer)
    (env : gmap string string) :
  Getenv env "IDEMPOTENCE_REDIS_HOST" = ""
  \/ Getenv env "IDEMPOTENCE_REDIS_PORT" = "" ->
  NewIdempotenceRepo [t] env = Ret (Failure envError)
  /\ NewIdempotenceRepo [] env = Ret (Failure envError).
Proof.
  intros H. unfold NewIdempotenceRepo. count_tracers.
  assert (String.eqb (Getenv env "IDEMPOTENCE_REDIS_HOST") ""
          || String.eqb (Getenv env "IDEMPOTENCE_REDIS_PORT") "" = true) as ->.
  { apply orb_true_iff. rewrite !String.eqb_eq. exact H. }
  split; reflexivity.
Qed.

Lemma NewIdempotenceRepo_too_many (t t' : option trace.Tracer)
    (ts : list (option trace.Tracer)) (env : gmap string string) :
  NewIdempotenceRepo (t :: t' :: ts) env =
    Ret (Failure (tooManyArgumentsError "NewIdempotenceRepo")).
Proof.
  unfold NewIdempotenceRepo. rewrite bool_decide_eq_true_2; [done|].
  cbn. lia.
Qed.

#[local] Arguments NewIdempotenceRepo : simpl never.

Lemma NewIdempotencyHandler_too_many (t t' : option trace.Tracer)
    (ts : list (option trace.Tracer)) (env : gmap string string) :
  NewIdempotencyHandler (t :: t' :: ts) env =
    Ret (Failure (tooManyArgumentsError "NewIdempotencyService")).
Proof.
  unfold NewIdempotencyHandler. rewrite bool_decide_eq_true_2; [done|].
  cbn. lia.
Qed.

Lemma Service_too_many (t t' : option trace.Tracer)
    (ts : list (option trace.Tracer)) (env : gmap string string) :
  Service.NewIdempotencyHandler (t :: t' :: ts) env =
    Ret (Failure (tooManyArgumentsError "NewIdempotencyService")).
Proof.
  unfold Service.NewIdempotencyHandler. rewrite bool_decide_eq_true_2; [done|].
  cbn. lia.
Qed.

(** C7. When IDEMPOTENCE_REDIS_HOST or IDEMPOTENCE_REDIS_PORT is unset or
    empty, [NewIdempotenceRepo] returns an error and no repository, and so
    does [NewIdempotencyHandler], whatever the tracer arguments: no
    handler exists that could meet the missing address at request time.
    With at most one tracer the error is the one about the two
    variables.  The constructor of idempontecyService.go returns an error
    as well when it is given a tracer argument. *)
Theorem missing_address_fails_construction
    (tracer : list (option trace.Tracer)) (env : gmap string string) :
  (env !! "IDEMPOTENCE_REDIS_HOST" = None
   \/ env !! "IDEMPOTENCE_REDIS_HOST" = Some ""
   \/ env !! "IDEMPOTENCE_REDIS_PORT" = None
   \/ env !! "IDEMPOTENCE_REDIS_PORT" = Some "") ->
  (exists err, NewIdempotenceRepo tracer env = Ret (Failure err))
  /\ (exists err, NewIdempotencyHandler tracer env = Ret (Failure err))
  /\ ((length tracer <= 1)%nat ->
      NewIdempotenceRepo tracer env = Ret (Failure envError)
      /\ NewIdempotencyHandler tracer env = Ret (Failure envError))
  /\ (tracer <> [] ->
      exists err, Service.NewIdempotencyHandler tracer env = Ret (Failure err)).
Proof.
  intros H.
  assert (Getenv env "IDEMPOTENCE_REDIS_HOST" = ""
          \/ Getenv env "IDEMPOTENCE_REDIS_PORT" = "") as Hg.
  { destruct H as [H|[H|[H|H]]];
      [left | left | right | right]; apply Getenv_empty; tauto. }
  destruct tracer as [|t [|t' ts]].
  - pose proof (NewIdempotenceRepo_unconfigured None env Hg) as [E1 E2].
    assert (NewIdempotencyHandler [] env = Ret (Failure envError)) as E3.
    { unfold NewIdempotencyHandler. count_tracers.
      cbn. unfold bind, mbind, Go_bind. by rewrite E1. }
    repeat split; eauto; done.
  - pose proof (NewIdempotenceRepo_unconfigured t env Hg) as [E1 _].
    assert (NewIdempotencyHandler [t] env = Ret (Failure envError)) as E3.
    { unfold NewIdempotencyHandler. count_tracers.
      cbn. unfold bind, mbind, Go_bind. by rewrite E1. }
    assert (Service.NewIdempotencyHandler [t] env = Ret (Failure envError))
      as E4.
    { unfold Service.NewIdempotencyHandler. count_tracers.
      cbn. unfold bind, mbind, Go_bind. by rewrite E1. }
    repeat split; eauto.
  - rewrite NewIdempotenceRepo_too_many, NewIdempotencyHandler_too_many,
      Service_too_many.
    repeat split; eauto; cbn in *; lia.
Qed.

Lemma missing_address_fails_construction_witness :
  ((∅ : gmap string string) !! "IDEMPOTENCE_REDIS_HOST" = None
   \/ (∅ : gmap string string) !! "IDEMPOTENCE_REDIS_HOST" = Some ""
   \/ (∅ : gmap string string) !! "IDEMPOTENCE_REDIS_PORT" = None
   \/ (∅ : gmap string string) !! "IDEMPOTENCE_REDIS_PORT" = Some "")
  /\ (exists err, NewIdempotenceRepo [] ∅ = Ret (Failure err))
  /\ (exists err, NewIdempotencyHandler [] ∅ = Ret (Failure err))
  /\ ((length ([] : list (option trace.Tracer)) <= 1)%nat ->
      NewIdempotenceRepo [] ∅ = Ret (Failure envError)
      /\ NewIdempotencyHandler [] ∅ = Ret (Failure envError))
  /\ (([] : list (option trace.Tracer)) <> [] ->
      exists err, Service.NewIdempotencyHandler [] ∅ = Ret (Failure err)).
Proof.
  split; [left; reflexivity|].
  apply (missing_address_fails_construction [] ∅). left. reflexivity.
Defined.

(** C9. With more than one tracer argument [NewIdempotencyHandler] (of
    either file) and [NewIdempotenceRepo] return the too-many-arguments
    error, each under the name it passes, and no instance; the environment
    is not even read. *)
Theorem too_many_tracers_rejected (tracer : list (option trace.Tracer))
    (env : gmap string string) :
  (1 < length tracer)%nat ->
  NewIdempotencyHandler tracer env =
    Ret (Failure "NewIdempotencyService : you passed in to many argumants into this function")
  /\ NewIdempotenceRepo tracer env =
    Ret (Failure "NewIdempotenceRepo : you passed in to many argumants into this function")
  /\ Service.NewIdempotencyHandler tracer env =
    Ret (Failure "NewIdempotencyService : you passed in to many argumants into this function").
Proof.
  intros H. destruct tracer as [|t [|t' ts]]; cbn in H; try lia.
  by rewrite NewIdempotenceRepo_too_many, NewIdempotencyHandler_too_many,
       Service_too_many.
Qed.

Lemma too_many_tracers_rejected_witness :
  (1 < length [None; Some (trace.recordingTracer "otel")])%nat
  /\ NewIdempotencyHandler [None; Some (trace.recordingTracer "otel")] configured =
    Ret (Failure "NewIdempotencyService : you passed in to many argumants into this function")
  /\ NewIdempotenceRepo [None; Some (trace.recordingTracer "otel")] configured =
    Ret (Failure "NewIdempotenceRepo : you passed in to many argumants into this function")
  /\ Service.NewIdempotencyHandler [None; Some (trace.recordingTracer "otel")]
       configured =
    Ret (Failure "NewIdempotencyService : you passed in to many argumants into this function").
Proof.
  split; [cbn; lia|].
  apply (too_many_tracers_rejected [None; Some (trace.recordingTracer "otel")]
           configured).
  cbn. lia.
Defined.

(** Construction without a tracer, in IdempotencyHandler.go: with the
    address configured it gives a handler that has no tracer, over a
    repository that has none either. *)
Lemma NewIdempotencyHandler_no_tracer (env : gmap string string) :
  Getenv env "IDEMPOTENCE_REDIS_HOST" <> "" ->
  Getenv env "IDEMPOTENCE_REDIS_PORT" <> "" ->
  NewIdempotencyHandler [] env =
    Ret (Value (redisHandler
      {| cli := redis.NewClient
           {| redis.Addr :=
                Sprintf "%s:%s" [Getenv env "IDEMPOTENCE_REDIS_HOST";
                                 Getenv env "IDEMPOTENCE_REDIS_PORT"] |};
         repoTracer := None |} None)).
Proof.
  intros Hh Hp. unfold NewIdempotencyHandler, NewIdempotenceRepo.
  count_tracers. cbn. count_tracers.
  apply String.eqb_neq in Hh, Hp.
  unfold bind, mbind, Go_bind. cbn. by rewrite Hh, Hp.
Qed.

(** C8, as idempontecyService.go has it.  There [NewIdempotencyHandler]
    indexes its argument list without making it non-empty first: with no
    tracer argument the call panics, whatever the environment.  And a
    handler of that file whose tracer is nil (built from one nil argument)
    panics on every POST, since the middleware starts a span on the tracer
    without a nil test. *)
Theorem Service_no_tracer_panics :
  (forall env, Service.NewIdempotencyHandler [] env = Panic "index out of range")
  /\ Service.NewIdempotencyHandler [None] configured =
       Ret (Value (redisHandler untracedRepo None))
  /\ (forall next rw w,
        (Service.MiddlewareIdempotency (redisHandler untracedRepo None) next rw
           (request http.MethodPost (keyed "abc")) w).1 =
        Panic "invalid memory address or nil pointer dereference").
Proof. repeat split. Qed.

(** IdempotencyHandler.go does what the earlier file misses: without a
    tracer the handler is built when the address is configured, and it
    serves any request without a span being recorded. *)
Lemma no_tracer_no_span (env : gmap string string) (next : Handler) :
  Getenv env "IDEMPOTENCE_REDIS_HOST" <> "" ->
  Getenv env "IDEMPOTENCE_REDIS_PORT" <> "" ->
  (forall rw h w, spans (next rw h w).2 = spans w) ->
  exists handler,
    NewIdempotencyHandler [] env = Ret (Value handler)
    /\ Tracer handler = None
    /\ forall rw h w,
         spans (MiddlewareIdempotency handler next rw h w).2 = spans w.
Proof.
  intros Hh Hp Hnext. eexists. split; [by apply NewIdempotencyHandler_no_tracer|].
  split; [reflexivity|]. intros. by apply untraced_no_span.
Qed.

(* ===================================================================== *)
(** * Store errors *)
(* ===================================================================== *)

Lemma claim_error_not_reported (s : redis.Server) (key : string) (e : error) :
  claim_error s key = Some e -> reported s key = false.
Proof.
  unfold claim_error, reported.
  destruct (redis.next_fault s); [done|].
  by destruct (redis.live s key).
Qed.

(** A failed existence check: [Exists] answers false, the error stays
    behind. *)
Lemma repoExists_fault i id ctx w e :
  redis.next_fault (backend w) = Some e -> (repoExists i id ctx w).1 = false.
Proof.
  intros H. destruct (repoExists_run i id ctx w) as (-> & _).
  unfold reported. by rewrite H.
Qed.

(** A failed write: [Save] returns the error to its caller. *)
Lemma repoSave_fault i id ctx w e :
  redis.next_fault (backend w) = Some e ->
  (repoSave i id ctx w).1 = (EmptyString, Some e).
Proof.
  intros H. destruct (repoSave_run i id ctx w) as (-> & _). by rewrite H.
Qed.

(** C4, against the claim.  With the server failing both commands, a POST
    with the key [abc] gets the response of a first request on a healthy
    server and reaches the downstream handler just the same: [Exists] has
    answered false, the error of [Save] has been dropped. *)
Lemma store_error_forwarded_silently :
  let h := request http.MethodPost (keyed "abc") in
  let handler := redisHandler untracedRepo None in
  let failing := MiddlewareIdempotency handler recordingHandler http.fresh h outage in
  let healthy := MiddlewareIdempotency handler recordingHandler http.fresh h initial in
  (repoExists untracedRepo "abc" None outage).1 = false
  /\ (repoSave untracedRepo "abc" None
        (repoExists untracedRepo "abc" None outage).2).1
     = (EmptyString, Some unreachable)
  /\ failing.1 = healthy.1
  /\ downstream failing.2 = downstream healthy.2
  /\ downstream failing.2 = [h]
  /\ spans failing.2 = spans healthy.2.
Proof. vm_compute. repeat split; reflexivity. Qed.

(** C4, amended.  When a claim attempt meets a store error, on the
    existence check or on the write after a negative answer, the gate does
    not act on it: the request goes to the downstream handler exactly once
    and nothing is written to the response, after the existence check and
    the SET have been sent as for a fresh token.  The repository reports
    the failed check as "absent" and returns the failed write's error,
    which the middleware drops. *)
Theorem store_error_fails_open (i : idempontencyRepoRedis)
    (tr : option trace.Tracer) (rw : http.ResponseWriter) (h : http.Request)
    (w : World) (e : error) :
  mutating (http.Method h) = true ->
  token h <> "" ->
  claim_error (backend w) (constructKey (token h)) = Some e ->
  let key := constructKey (token h) in
  let r := MiddlewareIdempotency (redisHandler i tr) recordingHandler rw h w in
  r.1 = rw
  /\ downstream r.2 = downstream w ++ [h]
  /\ commands_since w r.2 =
       [redis.EXISTS key; redis.SET key true (Duration_mul 3 Minute)]
  /\ (forall ctx w0, redis.next_fault (backend w0) = Some e ->
        (Exists (redisRepo i) (token h) ctx w0).1 = false
        /\ (Save (redisRepo i) (token h) ctx w0).1 = (EmptyString, Some e)).
Proof.
  intros Hm Htok Herr key r. subst key r.
  destruct (unreported_token_passes i tr rw h w Hm Htok
              (claim_error_not_reported _ _ _ Herr)) as (H1 & H2 & _ & H3).
  repeat split; try assumption.
  - by apply repoExists_fault with e.
  - by apply repoSave_fault.
Qed.

Lemma store_error_fails_open_witness :
  let h := request http.MethodPost (keyed "abc") in
  let key := constructKey (token h) in
  let r := MiddlewareIdempotency (redisHandler untracedRepo None)
             recordingHandler http.fresh h outage in
  mutating (http.Method h) = true /\ token h <> ""
  /\ claim_error (backend outage) key = Some unreachable
  /\ r.1 = http.fresh
  /\ downstream r.2 = downstream outage ++ [h]
  /\ commands_since outage r.2 =
       [redis.EXISTS key; redis.SET key true (Duration_mul 3 Minute)]
  /\ (forall ctx w0, redis.next_fault (backend w0) = Some unreachable ->
        (Exists (redisRepo untracedRepo) (token h) ctx w0).1 = false
        /\ (Save (redisRepo untracedRepo) (token h) ctx w0).1
           = (EmptyString, Some unreachable)).
Proof.
  split; [reflexivity|]. split; [discriminate|]. split; [reflexivity|].
  exact (store_error_fails_open untracedRepo None http.fresh
           (request http.MethodPost (keyed "abc")) outage unreachable
           eq_refl ltac:(discriminate) eq_refl).
Defined.

(* ===================================================================== *)
(** * Save, then Exists *)
(* ===================================================================== *)










(* ===================================================================== *)
(** * Concurrent and consecutive claims *)
(* ===================================================================== *)

(** The two pieces of a request, run without interruption, are the
    middleware. *)
Lemma steps_are_middleware (handler : IdempotencyHandlerImpl) (next : Handler)
    (rw : http.ResponseWriter) (h : http.Request) (w : World) :
  (let* t := step handler next (Arrived rw h) in step handler next t) w =
  (let* rw' := MiddlewareIdempotency handler next rw h in
   mret (Returned rw')) w.
Proof.
  unfold MiddlewareIdempotency, step, gate, condition.
  destruct (mutating (http.Method h)).
  - destruct (Tracer handler) as [t|].
    + unfold defer, end_span, Tracer_Start, Span_End, record_span.
      unfold bind, mbind, M_bind, mret, M_ret. cbn.
      destruct (negb _).
      * destruct (Exists _ _ _ _) as [[|] w1]; [done|].
        destruct (Save _ _ _ _) as [res w2]. by destruct (next rw h w2).
      * destruct (Save _ _ _ _) as [res w2]. by destruct (next rw h w2).
    + unfold end_span. unfold bind, mbind, M_bind, mret, M_ret.
      destruct (negb _).
      * destruct (Exists _ _ _ _) as [[|] w1]; [done|].
        destruct (Save _ _ _ _) as [res w2]. by destruct (next rw h w2).
      * destruct (Save _ _ _ _) as [res w2]. by destruct (next rw h w2).
  - unfold bind, mbind, M_bind, mret, M_ret. by destruct (next rw h w).
Qed.

(** C1, against the claim.  Two POSTs with the key [abc] against an empty
    store, the second making its existence check before the first has
    saved: both find the token absent, both save it, both reach the
    downstream handler, neither is answered 200. *)
Lemma concurrent_claims_both_pass :
  let h := request http.MethodPost (keyed "abc") in
  let r := interleave (redisHandler untracedRepo None) recordingHandler
             [0; 1; 0; 1]%nat
             [Arrived http.fresh h; Arrived http.fresh h] initial in
  r.1 = [Returned http.fresh; Returned http.fresh]
  /\ downstream r.2 = [h; h]
  /\ forwarded r.2 = 2%nat
  /\ count_short_circuited (returned_writers r.1) = 0%nat
  /\ redis.log (backend r.2) =
       [redis.EXISTS "req:abc"; redis.EXISTS "req:abc";
        redis.SET "req:abc" true 180000000000;
        redis.SET "req:abc" true 180000000000]
  /\ ~ (forwarded r.2 = 1%nat
        /\ count_short_circuited (returned_writers r.1) = (2 - 1)%nat).
Proof.
  vm_compute. repeat split; try reflexivity. intros [H _]. discriminate.
Qed.

Lemma serve_cons handler next d h arrivals w :
  serve handler next ((d, h) :: arrivals) w =
  let r := MiddlewareIdempotency handler next http.fresh h (elapse d w).2 in
  let rs := serve handler next arrivals r.2 in
  (r.1 :: rs.1, rs.2).
Proof.
  cbn [serve]. unfold bind, mbind, M_bind, mret, M_ret. cbn.
  destruct (MiddlewareIdempotency _ _ _ _ _) as [rw w1]. cbn.
  by destruct (serve handler next arrivals w1).
Qed.

Lemma count_short_circuited_stopped rws :
  count_short_circuited (http.WriteHeader http.fresh http.StatusOK :: rws) =
  S (count_short_circuited rws).
Proof. reflexivity. Qed.

Lemma count_short_circuited_passed rws :
  count_short_circuited (http.fresh :: rws) = count_short_circuited rws.
Proof. reflexivity. Qed.

Lemma total_delay_nonneg tok arrivals :
  Forall (attempt_on tok) arrivals -> 0 <= total_delay arrivals.
Proof.
  induction 1 as [|a l (Ha & _) _ IH]; [done|].
  change (0 <= a.1 + total_delay l). lia.
Qed.

(** While the record is there and the server answers, every attempt is
    answered 200 after its existence check, and none goes further. *)
Lemma serve_claimed i tr tok arrivals : forall w,
  tok <> "" ->
  Forall (attempt_on tok) arrivals ->
  redis.faults (backend w) = [] ->
  remains (constructKey tok) (total_delay arrivals) (backend w) ->
  let r := serve (redisHandler i tr) recordingHandler arrivals w in
  downstream r.2 = downstream w
  /\ count_short_circuited r.1 = length arrivals
  /\ redis.log (backend r.2) =
       redis.log (backend w)
       ++ replicate (length arrivals) (redis.EXISTS (constructKey tok)).
Proof.
  induction arrivals as [|[d h] l IH]; intros w Htok Hall Hf Hrem.
  { cbn. by rewrite app_nil_r. }
  inversion Hall as [|? ? (Hd & Hm & Ht) Hall']. cbn in Hd, Hm, Ht. subst.
  pose proof (total_delay_nonneg _ _ Hall') as Hnn.
  change (total_delay ((d, h) :: l)) with (d + total_delay l) in Hrem.
  destruct Hrem as (e & dl & He & Hdl & Hclock).
  rewrite serve_cons. cbn zeta.
  set (w1 := (elapse d w).2).
  assert (reported (backend w1) (constructKey (token h)) = true) as Hrep.
  { unfold reported, redis.next_fault, redis.live. cbn. rewrite Hf, He, Hdl.
    apply bool_decide_eq_true. lia. }
  destruct (reported_token_stops i tr http.fresh h w1 Hm Htok Hrep)
    as (H1 & H2 & H3).
  set (r := MiddlewareIdempotency _ _ _ _ w1) in *.
  destruct (IH r.2 Htok Hall') as (IH1 & IH2 & IH3).
  { rewrite H3, Exists_server. cbn. by rewrite Hf. }
  { rewrite H3, Exists_server. exists e, dl. cbn. repeat split; try done. lia. }
  cbn [fst snd]. split; [by rewrite IH1, H2|]. split.
  - by rewrite H1, count_short_circuited_stopped, IH2.
  - rewrite IH3, H3, Exists_server. cbn. by rewrite <- app_assoc.
Qed.

(** The retry scenario of the specification: the key [abc] claimed by a
    first POST, a second POST ten seconds later answered 200, a third one
    three minutes and a second after the first served again. *)
Example retry_scenario :
  let h := request http.MethodPost (keyed "abc") in
  let r := serve (redisHandler untracedRepo None) recordingHandler
             [(0, h); (10 * Second, h); (3 * Minute - 9 * Second, h)]
             initial in
  r.1 = [http.fresh; http.WriteHeader http.fresh http.StatusOK; http.fresh]
  /\ downstream r.2 = [h; h].
Proof. vm_compute. split; reflexivity. Qed.

(** C1, amended.  The claim is two store commands, an existence check and
    then a SET.  For every N >= 1, N attempts on one token that are served
    one after the other, within three minutes of the first, on a server
    that answers every command and holds no record of the token: exactly
    one reaches the downstream handler and the N-1 others are answered
    200. *)
Theorem consecutive_claims_pass_once (i : idempontencyRepoRedis)
    (tr : option trace.Tracer) (tok : string)
    (arrivals : list (Z * http.Request)) (w : World) :
  tok <> "" ->
  arrivals <> [] ->
  Forall (attempt_on tok) arrivals ->
  total_delay (tail arrivals) < Duration_mul 3 Minute ->
  redis.db (backend w) !! constructKey tok = None ->
  redis.faults (backend w) = [] ->
  let r := serve (redisHandler i tr) recordingHandler arrivals w in
  forwarded r.2 = (forwarded w + 1)%nat
  /\ count_short_circuited r.1 = (length arrivals - 1)%nat
  /\ commands_since w r.2 =
       [redis.EXISTS (constructKey tok);
        redis.SET (constructKey tok) true (Duration_mul 3 Minute)]
       ++ replicate (length arrivals - 1) (redis.EXISTS (constructKey tok)).
Proof.
  intros Htok Hne Hall Hlt Hnone Hf.
  destruct arrivals as [|[d h] l]; [done|]. clear Hne.
  inversion Hall as [|? ? (Hd & Hm & Ht) Hall']. cbn in Hd, Hm, Ht. subst.
  cbn [tail] in Hlt. rewrite serve_cons. cbn zeta.
  set (w1 := (elapse d w).2).
  assert (reported (backend w1) (constructKey (token h)) = false) as Hrep.
  { unfold reported, redis.next_fault, redis.live. cbn. by rewrite Hf, Hnone. }
  destruct (unreported_token_passes i tr http.fresh h w1 Hm Htok Hrep)
    as (H1 & H2 & H3 & _).
  set (r := MiddlewareIdempotency _ _ _ _ w1) in *.
  assert (redis.faults (backend r.2) = []) as Hf'.
  { rewrite H3, Set_faults, Exists_server. cbn. by rewrite Hf. }
  destruct (serve_claimed i tr (token h) l r.2 Htok Hall' Hf')
    as (S1 & S2 & S3).
  { unfold remains. rewrite H3, Set_db, Set_clock, Exists_server.
    unfold redis.next_fault. cbn. rewrite Hf. cbn.
    rewrite lookup_insert_eq. eexists _, _. split; [done|]. cbn.
    rewrite three_minutes in *. cbn. split; [done|]. lia. }
  cbn [fst snd length]. rewrite Nat.sub_succ, Nat.sub_0_r.
  split; [|split].
  - unfold forwarded. rewrite S1, H2, length_app. done.
  - by rewrite H1, count_short_circuited_passed.
  - apply commands_since_app. rewrite S3, H3, Set_log, Exists_server. cbn.
    by rewrite <- !app_assoc.
Qed.

Lemma consecutive_claims_pass_once_witness :
  let r := serve (redisHandler untracedRepo None) recordingHandler
             three_attempts initial in
  "abc" <> ""
  /\ three_attempts <> []
  /\ Forall (attempt_on "abc") three_attempts
  /\ total_delay (tail three_attempts) < Duration_mul 3 Minute
  /\ redis.db (backend initial) !! constructKey "abc" = None
  /\ redis.faults (backend initial) = []
  /\ forwarded r.2 = (forwarded initial + 1)%nat
  /\ count_short_circuited r.1 = (length three_attempts - 1)%nat
  /\ commands_since initial r.2 =
       [redis.EXISTS (constructKey "abc");
        redis.SET (constructKey "abc") true (Duration_mul 3 Minute)]
       ++ replicate (length three_attempts - 1)
            (redis.EXISTS (constructKey "abc")).
Proof.
  assert (Forall (attempt_on "abc") three_attempts) as Hall.
  { repeat constructor; vm_compute; discriminate. }
  assert ("abc" <> "") as Htok by discriminate.
  assert (three_attempts <> []) as Hne by discriminate.
  cbv zeta.
  split; [exact Htok|]. split; [exact Hne|]. split; [exact Hall|].
  split; [reflexivity|]. split; [reflexivity|]. split; [reflexivity|].
  exact (consecutive_claims_pass_once untracedRepo None "abc" three_attempts
           initial Htok Hne Hall eq_refl eq_refl eq_refl).
Defined.

(* ===================================================================== *)
(** * Further properties of the gate *)
(* ===================================================================== *)

(** X1. Tracing does not change what the gate does.  Take two handlers
    over the same client, each with any tracers, or none, for the handler
    and for its repository, as long as a repository with a tracer sits
    under a handler with one (as in every handler that
    [NewIdempotencyHandler] builds, where the two share the tracer): a
    request gets the same response, the same downstream call and leaves
    the same server with either. *)
Theorem tracing_is_transparent (c : redis.Client)
    (t1 t2 tr1 tr2 : option trace.Tracer) (rw : http.ResponseWriter)
    (h : http.Request) (w : World) :
  (t1 <> None -> tr1 <> None) ->
  (t2 <> None -> tr2 <> None) ->
  let r1 := MiddlewareIdempotency
              (redisHandler {| cli := c; repoTracer := t1 |} tr1)
              recordingHandler rw h w in
  let r2 := MiddlewareIdempotency
              (redisHandler {| cli := c; repoTracer := t2 |} tr2)
              recordingHandler rw h w in
  r1.1 = r2.1 /\ downstream r1.2 = downstream r2.2
  /\ backend r1.2 = backend r2.2.
Proof.
  intros _ _ r1 r2.
  pose proof (middleware_run {| cli := c; repoTracer := t1 |} tr1 rw h w) as H1.
  pose proof (middleware_run {| cli := c; repoTracer := t2 |} tr2 rw h w) as H2.
  fold r1 in H1. fold r2 in H2. cbn [cli] in H1, H2.
  destruct (mutating (http.Method h));
    destruct H1 as (-> & -> & ->), H2 as (-> & -> & ->); done.
Qed.

Lemma tracing_is_transparent_witness :
  let h := request http.MethodPost (keyed "abc") in
  let r1 := MiddlewareIdempotency
              (redisHandler {| cli := localClient; repoTracer := Some otel |}
                 (Some otel))
              recordingHandler http.fresh h claimed in
  let r2 := MiddlewareIdempotency
              (redisHandler {| cli := localClient; repoTracer := None |} None)
              recordingHandler http.fresh h claimed in
  (Some otel <> None -> Some otel <> None)
  /\ ((None : option trace.Tracer) <> None -> (None : option trace.Tracer) <> None)
  /\ r1.1 = r2.1 /\ downstream r1.2 = downstream r2.2
  /\ backend r1.2 = backend r2.2.
Proof.
  split; [exact (fun H => H)|]. split; [exact (fun H => H)|].
  exact (tracing_is_transparent localClient (Some otel) None (Some otel) None
           http.fresh (request http.MethodPost (keyed "abc")) claimed
           (fun H => H) (fun H => H)).
Defined.

(** X2. A request touches no token but its own: the record of any other
    token is as it was, and is live or not as before.  This holds for a
    request without token too, whose write goes to the bare key. *)
Theorem other_tokens_untouched (i : idempontencyRepoRedis)
    (tr : option trace.Tracer) (rw : http.ResponseWriter) (h : http.Request)
    (w : World) (tok : string) :
  tok <> token h ->
  let r := MiddlewareIdempotency (redisHandler i tr) recordingHandler rw h w in
  redis.db (backend r.2) !! constructKey tok =
    redis.db (backend w) !! constructKey tok
  /\ redis.live (backend r.2) (constructKey tok) =
     redis.live (backend w) (constructKey tok).
Proof.
  intros Hne r.
  pose proof (middleware_run i tr rw h w) as Hrun. fold r in Hrun.
  assert (redis.db (backend r.2) !! constructKey tok =
            redis.db (backend w) !! constructKey tok
          /\ redis.clock (backend r.2) = redis.clock (backend w)) as [Hdb Hck].
  { destruct (mutating (http.Method h)); destruct Hrun as (_ & _ & ->);
      [|done].
    split; [|apply after_gate_clock].
    destruct (after_gate_db (cli i) (token h) (backend w) (constructKey tok))
      as [E|[E _]]; [exact E|].
    apply constructKey_inj in E. contradiction. }
  split; [exact Hdb|]. unfold redis.live. by rewrite Hdb, Hck.
Qed.

Lemma other_tokens_untouched_witness :
  let h := request http.MethodPost (keyed "abc") in
  let r := MiddlewareIdempotency (redisHandler untracedRepo None)
             recordingHandler http.fresh h initial in
  "xyz" <> token h
  /\ redis.db (backend r.2) !! constructKey "xyz" =
       redis.db (backend initial) !! constructKey "xyz"
  /\ redis.live (backend r.2) (constructKey "xyz") =
     redis.live (backend initial) (constructKey "xyz").
Proof.
  split; [discriminate|].
  apply (other_tokens_untouched untracedRepo None http.fresh
           (request http.MethodPost (keyed "abc")) initial "xyz").
  discriminate.
Defined.

(** X3. The gate never removes a record and never moves the server's
    clock: whatever the request, every key that had a record still has
    one. *)
Theorem no_record_removed (i : idempontencyRepoRedis)
    (tr : option trace.Tracer) (rw : http.ResponseWriter) (h : http.Request)
    (w : World) (k : string) (e : redis.Entry) :
  redis.db (backend w) !! k = Some e ->
  let r := MiddlewareIdempotency (redisHandler i tr) recordingHandler rw h w in
  is_Some (redis.db (backend r.2) !! k)
  /\ redis.clock (backend r.2) = redis.clock (backend w).
Proof.
  intros He r.
  pose proof (middleware_run i tr rw h w) as Hrun. fold r in Hrun.
  destruct (mutating (http.Method h)); destruct Hrun as (_ & _ & ->);
    [|by split; [exists e|]].
  split; [|apply after_gate_clock].
  destruct (after_gate_db (cli i) (token h) (backend w) k) as [E|[_ E]];
    rewrite E; [by exists e | by eexists].
Qed.

Lemma no_record_removed_witness :
  let h := request http.MethodDelete (keyed "xyz") in
  let e := {| redis.value := true; redis.deadline := Some (90 * Second) |} in
  let r := MiddlewareIdempotency (redisHandler untracedRepo None)
             recordingHandler http.fresh h claimed in
  redis.db (backend claimed) !! "req:abc" = Some e
  /\ is_Some (redis.db (backend r.2) !! "req:abc")
  /\ redis.clock (backend r.2) = redis.clock (backend claimed).
Proof.
  split; [reflexivity|].
  apply (no_record_removed untracedRepo None http.fresh
           (request http.MethodDelete (keyed "xyz")) claimed "req:abc"
           {| redis.value := true; redis.deadline := Some (90 * Second) |}).
  reflexivity.
Defined.

(** X4. A duplicate does not renew the claim: when the store reports the
    token, the request is answered 200 after the existence check alone,
    and the records of the store, the deadline of the token among them,
    are left as they were. *)
Theorem duplicate_keeps_deadline (i : idempontencyRepoRedis)
    (tr : option trace.Tracer) (rw : http.ResponseWriter) (h : http.Request)
    (w : World) :
  mutating (http.Method h) = true ->
  token h <> "" ->
  reported (backend w) (constructKey (token h)) = true ->
  let r := MiddlewareIdempotency (redisHandler i tr) recordingHandler rw h w in
  r.1 = http.WriteHeader rw http.StatusOK
  /\ redis.db (backend r.2) = redis.db (backend w)
  /\ commands_since w r.2 = [redis.EXISTS (constructKey (token h))].
Proof.
  intros Hm Htok Hrep r.
  destruct (reported_token_stops i tr rw h w Hm Htok Hrep) as (H1 & _ & H3).
  fold r in H1, H3. split; [exact H1|]. rewrite H3, Exists_server.
  split; [reflexivity|].
  apply commands_since_app. by rewrite H3, Exists_server.
Qed.

Lemma duplicate_keeps_deadline_witness :
  let h := request http.MethodPost (keyed "abc") in
  let r := MiddlewareIdempotency (redisHandler untracedRepo None)
             recordingHandler http.fresh h claimed in
  mutating (http.Method h) = true
  /\ token h <> ""
  /\ reported (backend claimed) (constructKey (token h)) = true
  /\ r.1 = http.WriteHeader http.fresh http.StatusOK
  /\ redis.db (backend r.2) = redis.db (backend claimed)
  /\ commands_since claimed r.2 = [redis.EXISTS (constructKey (token h))].
Proof.
  split; [reflexivity|]. split; [discriminate|]. split; [reflexivity|].
  exact (duplicate_keeps_deadline untracedRepo None http.fresh
           (request http.MethodPost (keyed "abc")) claimed
           eq_refl ltac:(discriminate) eq_refl).
Defined.

(** X5. One request sends at most one existence check and at most one
    write, the check first, both under the key of the request's own token,
    and nothing else; a request of another method sends nothing. *)
Theorem one_check_then_one_write (i : idempontencyRepoRedis)
    (tr : option trace.Tracer) (rw : http.ResponseWriter) (h : http.Request)
    (w : World) :
  let r := MiddlewareIdempotency (redisHandler i tr) recordingHandler rw h w in
  let key := constructKey (token h) in
  let set := redis.SET key true (Duration_mul 3 Minute) in
  (mutating (http.Method h) = false /\ commands_since w r.2 = [])
  \/ (mutating (http.Method h) = true /\ token h = ""
      /\ commands_since w r.2 = [set])
  \/ (mutating (http.Method h) = true /\ token h <> ""
      /\ (commands_since w r.2 = [redis.EXISTS key]
          \/ commands_since w r.2 = [redis.EXISTS key; set])).
Proof.
  intros r key set. unfold r. rewrite middleware_commands.
  destruct (mutating (http.Method h)); [|by left].
  right. unfold gate_commands. fold key set.
  destruct (String.eqb (token h) "") eqn:E.
  - left. apply String.eqb_eq in E. done.
  - right. apply String.eqb_neq in E.
    destruct (reported (backend w) key); auto.
Qed.

(** X6. A claim lasts three minutes and no longer: a token claimed by one
    request is free again for a request that comes more than three minutes
    later, which reaches the downstream handler like the first. *)
Theorem expired_claim_passes_again (i : idempontencyRepoRedis)
    (tr : option trace.Tracer) (tok : string) (d0 d1 : Z)
    (h0 h1 : http.Request) (w : World) :
  tok <> "" ->
  attempt_on tok (d0, h0) ->
  attempt_on tok (d1, h1) ->
  Duration_mul 3 Minute < d1 ->
  redis.db (backend w) !! constructKey tok = None ->
  redis.faults (backend w) = [] ->
  let r := serve (redisHandler i tr) recordingHandler [(d0, h0); (d1, h1)] w in
  r.1 = [http.fresh; http.fresh]
  /\ downstream r.2 = downstream w ++ [h0; h1].
Proof.
  intros Htok (Hd0 & Hm0 & Ht0) (Hd1 & Hm1 & Ht1) Hlate Hnone Hf.
  cbn in Hd0, Hm0, Ht0, Hd1, Hm1, Ht1. subst tok.
  rewrite serve_cons. cbn zeta. rewrite serve_cons. cbn zeta.
  change (serve (redisHandler i tr) recordingHandler []) with
    (mret [] : M (list http.ResponseWriter)).
  unfold mret, M_ret.
  set (w1 := (elapse d0 w).2).
  assert (reported (backend w1) (constructKey (token h0)) = false) as Hrep.
  { unfold reported, redis.next_fault, redis.live. cbn. by rewrite Hf, Hnone. }
  destruct (unreported_token_passes i tr http.fresh h0 w1 Hm0 Htok Hrep)
    as (H1 & H2 & H3 & _).
  set (r0 := MiddlewareIdempotency _ _ _ h0 w1) in *.
  set (w2 := (elapse d1 r0.2).2).
  assert (reported (backend w2) (constructKey (token h1)) = false) as Hrep'.
  { assert (redis.faults (backend r0.2) = []) as Hf0.
    { rewrite H3, Set_faults, Exists_server. cbn. by rewrite Hf. }
    rewrite Ht1. unfold reported, redis.next_fault, redis.live.
    change (backend w2) with (redis.tick d1 (backend r0.2)).
    cbn [redis.tick redis.faults redis.db redis.clock]. rewrite Hf0.
    rewrite H3, Set_db, Set_clock, Exists_server.
    unfold redis.next_fault. cbn [redis.sent redis.faults redis.db redis.clock
                                  redis.tick tail].
    assert (redis.faults (backend w1) = []) as Hf1 by exact Hf.
    rewrite Hf1. cbn [tail]. rewrite lookup_insert_eq.
    cbn [redis.deadline]. rewrite three_minutes in *.
    change (0 <? 180000000000) with true. cbn iota.
    apply bool_decide_eq_false. lia. }
  assert (token h1 <> "") as Htok' by (by rewrite Ht1).
  destruct (unreported_token_passes i tr http.fresh h1 w2 Hm1 Htok' Hrep')
    as (H1' & H2' & _).
  change (downstream w2) with (downstream r0.2) in H2'.
  change (downstream w1) with (downstream w) in H2.
  cbn [fst snd]. rewrite H1, H1', H2', H2.
  by rewrite <- app_assoc.
Qed.

Lemma expired_claim_passes_again_witness :
  let h := request http.MethodPost (keyed "abc") in
  let r := serve (redisHandler untracedRepo None) recordingHandler
             [(0, h); (3 * Minute + Second, h)] initial in
  "abc" <> ""
  /\ attempt_on "abc" (0, h)
  /\ attempt_on "abc" (3 * Minute + Second, h)
  /\ Duration_mul 3 Minute < 3 * Minute + Second
  /\ redis.db (backend initial) !! constructKey "abc" = None
  /\ redis.faults (backend initial) = []
  /\ r.1 = [http.fresh; http.fresh]
  /\ downstream r.2 = downstream initial ++ [h; h].
Proof.
  assert ("abc" <> "") as Htok by discriminate.
  assert (attempt_on "abc" (0, request http.MethodPost (keyed "abc"))) as A0.
  { repeat split; vm_compute; discriminate. }
  assert (attempt_on "abc"
            (3 * Minute + Second, request http.MethodPost (keyed "abc")))
    as A1.
  { repeat split; vm_compute; discriminate. }
  assert (Duration_mul 3 Minute < 3 * Minute + Second) as Hlate.
  { vm_compute. reflexivity. }
  cbv zeta.
  split; [exact Htok|]. split; [exact A0|]. split; [exact A1|].
  split; [exact Hlate|]. split; [reflexivity|]. split; [reflexivity|].
  exact (expired_claim_passes_again untracedRepo None "abc" 0
           (3 * Minute + Second) _ _ initial Htok A0 A1 Hlate eq_refl
           eq_refl).
Defined.

(** X7. Requests without a token are never held back: however many come,
    at whatever times and whatever the server does, each one reaches the
    downstream handler, in order, and none is answered by the gate. *)
Theorem unkeyed_requests_all_pass (i : idempontencyRepoRedis)
    (tr : option trace.Tracer) (arrivals : list (Z * http.Request)) :
  forall w : World,
  Forall unkeyed arrivals ->
  let r := serve (redisHandler i tr) recordingHandler arrivals w in
  r.1 = replicate (length arrivals) http.fresh
  /\ downstream r.2 = downstream w ++ arrivals.*2.
Proof.
  induction arrivals as [|[d h] l IH]; intros w Hall.
  { cbn. by rewrite app_nil_r. }
  inversion Hall as [|? ? (Hm & Ht) Hall']; subst. cbn in Hm, Ht.
  rewrite serve_cons. cbn zeta.
  destruct (empty_token_saved i tr http.fresh h (elapse d w).2 Hm Ht)
    as (H1 & H2 & _).
  set (r := MiddlewareIdempotency _ _ _ h _) in *.
  destruct (IH r.2 Hall') as (IH1 & IH2).
  cbn [fst snd]. rewrite IH1, IH2, H1, H2. cbn.
  by rewrite <- app_assoc.
Qed.

Lemma unkeyed_requests_all_pass_witness :
  let h := request http.MethodPost ∅ in
  let h' := request http.MethodPut (keyed "") in
  let arrivals := [(0, h); (0, h'); (5 * Second, h)] in
  let r := serve (redisHandler untracedRepo None) recordingHandler arrivals
             outage in
  Forall unkeyed arrivals
  /\ r.1 = replicate (length arrivals) http.fresh
  /\ downstream r.2 = downstream outage ++ arrivals.*2.
Proof.
  assert (Forall unkeyed
            [(0, request http.MethodPost ∅);
             (0, request http.MethodPut (keyed ""));
             (5 * Second, request http.MethodPost ∅)]) as Hall.
  { repeat constructor. }
  cbv zeta. split; [exact Hall|].
  exact (unkeyed_requests_all_pass untracedRepo None _ outage Hall).
Defined.

(* ===================================================================== *)
(** * Further properties of the repository and of tracing *)
(* ===================================================================== *)

Lemma spans_since_app w w' l :
  spans w' = spans w ++ l -> spans_since w w' = l.
Proof. unfold spans_since. intros ->. by rewrite drop_app_length. Qed.

(** X8. What [Save] returns and records.  When the server takes the
    write, [Save] returns the token it was given and no error, and the
    record is live; when the write fails, it returns the empty string with
    the server's error.  A repository with a tracer, given a context that
    is not nil, wraps the call in one span, and marks that span with the
    status Error and the error's message exactly when the write has
    failed; a repository without tracer records nothing. *)
Theorem Save_outcome (i : idempontencyRepoRedis) (id : string)
    (ctx : option trace.Context) (w : World) :
  (repoTracer i <> None -> ctx <> None) ->
  let r := repoSave i id ctx w in
  let name := "IdempontencyRepoRedis.Save" in
  match redis.next_fault (backend w) with
  | None =>
      r.1 = (id, None)
      /\ redis.live (backend r.2) (constructKey id) = true
      /\ spans_since w r.2 =
           match repoTracer i with
           | Some _ => [trace.SpanStart name ctx; trace.SpanEnd name]
           | None => []
           end
  | Some e =>
      r.1 = (EmptyString, Some e)
      /\ spans_since w r.2 =
           match repoTracer i with
           | Some _ =>
               [trace.SpanStart name ctx;
                trace.SpanSetStatus name trace.Error e; trace.SpanEnd name]
           | None => []
           end
  end.
Proof.
  intros _ r name.
  destruct (repoSave_run i id ctx w) as (Hres & Hb & _). fold r in Hres, Hb.
  assert (spans_since w r.2 =
            match repoTracer i, redis.next_fault (backend w) with
            | Some _, Some e =>
                [trace.SpanStart name ctx;
                 trace.SpanSetStatus name trace.Error e; trace.SpanEnd name]
            | Some _, None => [trace.SpanStart name ctx; trace.SpanEnd name]
            | None, _ => []
            end) as Hsp.
  { apply spans_since_app. unfold r, repoSave.
    unfold defer, Tracer_Start, Span_End, Span_SetStatus, record_span, command.
    unfold bind, mbind, M_bind, mret, M_ret.
    pose proof (Set_error (cli i) (constructKey id) true (Duration_mul 3 Minute)
                  (backend w)) as He.
    destruct (repoTracer i); cbn;
      destruct (redis.Set_ _ _ _ _ _) as [c s]; cbn in *; rewrite <- ?He;
      destruct (redis.StatusErr c); cbn; rewrite <- ?app_assoc;
      by rewrite ?app_nil_r. }
  rewrite Hsp, Hres, Hb. unfold redis.live. rewrite Set_db, Set_clock.
  destruct (redis.next_fault (backend w)) as [e|].
  - by destruct (repoTracer i).
  - split; [done|]. split; [|by destruct (repoTracer i)].
    rewrite lookup_insert_eq. cbn.
    rewrite three_minutes. cbn. apply bool_decide_eq_true. lia.
Qed.

Lemma Save_outcome_witness :
  let ctx := Some trace.Background in
  let r := repoSave tracedRepo "abc" ctx outage in
  let name := "IdempontencyRepoRedis.Save" in
  (repoTracer tracedRepo <> None -> ctx <> None)
  /\ r.1 = (EmptyString, Some unreachable)
  /\ spans_since outage r.2 =
       [trace.SpanStart name ctx;
        trace.SpanSetStatus name trace.Error unreachable; trace.SpanEnd name].
Proof.
  assert (repoTracer tracedRepo <> None -> Some trace.Background <> None)
    as H by discriminate.
  cbv zeta. split; [exact H|].
  exact (Save_outcome tracedRepo "abc" (Some trace.Background) outage H).
Defined.

(** X9. [Exists] only reads, and a failure leaves no trace.  It sends the
    one existence check and leaves records and clock as they are; its
    answer is true exactly when the server answers and the record is live.
    A repository with a tracer, given a context that is not nil, wraps the
    call in one span, which carries no status whether the check has failed
    or not: a failed check looks like an absent token in the result and in
    the telemetry alike. *)
Theorem Exists_outcome (i : idempontencyRepoRedis) (id : string)
    (ctx : option trace.Context) (w : World) :
  (repoTracer i <> None -> ctx <> None) ->
  let r := repoExists i id ctx w in
  let name := "IdempontencyRepoRedis.Exists" in
  (r.1 = true <->
     redis.next_fault (backend w) = None
     /\ redis.live (backend w) (constructKey id) = true)
  /\ redis.db (backend r.2) = redis.db (backend w)
  /\ redis.clock (backend r.2) = redis.clock (backend w)
  /\ commands_since w r.2 = [redis.EXISTS (constructKey id)]
  /\ spans_since w r.2 =
       match repoTracer i with
       | Some _ => [trace.SpanStart name ctx; trace.SpanEnd name]
       | None => []
       end.
Proof.
  intros _ r name.
  destruct (repoExists_run i id ctx w) as (Hres & Hb & _). fold r in Hres, Hb.
  split; [|split; [by rewrite Hb|split; [by rewrite Hb|split]]].
  - rewrite Hres. unfold reported.
    destruct (redis.next_fault (backend w)); [|tauto].
    split; [discriminate | intros [? _]; discriminate].
  - apply commands_since_app. by rewrite Hb.
  - apply spans_since_app. unfold r, repoExists.
    unfold defer, Tracer_Start, Span_End, record_span, command.
    unfold bind, mbind, M_bind, mret, M_ret.
    destruct (repoTracer i); cbn;
      destruct (redis.Exists _ _ _) as [c s]; cbn;
      rewrite <- ?app_assoc; by rewrite ?app_nil_r.
Qed.

Lemma Exists_outcome_witness :
  let ctx := Some trace.Background in
  let r := repoExists tracedRepo "abc" ctx outage in
  let name := "IdempontencyRepoRedis.Exists" in
  (repoTracer tracedRepo <> None -> ctx <> None)
  /\ (r.1 = true <->
        redis.next_fault (backend outage) = None
        /\ redis.live (backend outage) (constructKey "abc") = true)
  /\ redis.db (backend r.2) = redis.db (backend outage)
  /\ redis.clock (backend r.2) = redis.clock (backend outage)
  /\ commands_since outage r.2 = [redis.EXISTS (constructKey "abc")]
  /\ spans_since outage r.2 = [trace.SpanStart name ctx; trace.SpanEnd name].
Proof.
  assert (repoTracer tracedRepo <> None -> Some trace.Background <> None)
    as H by discriminate.
  cbv zeta. split; [exact H|].
  exact (Exists_outcome tracedRepo "abc" (Some trace.Background) outage H).
Defined.

(** The spans of one request over the Redis repository, case by case. *)
Lemma middleware_spans (i : idempontencyRepoRedis) (tr : option trace.Tracer)
    (rw : http.ResponseWriter) (h : http.Request) (w : World) :
  exists evs,
    spans (MiddlewareIdempotency (redisHandler i tr) recordingHandler rw h w).2
      = spans w ++ evs
    /\ bracketed [] evs = true.
Proof.
  unfold MiddlewareIdempotency, gate, condition.
  cbn [Tracer repo redisHandler Exists Save redisRepo].
  unfold repoExists, repoSave, recordingHandler.
  unfold defer, Tracer_Start, Span_End, Span_SetStatus, record_span, command.
  unfold bind, mbind, M_bind, mret, M_ret.
  destruct (mutating (http.Method h));
    [|exists []; cbn; by rewrite app_nil_r].
  destruct tr, (repoTracer i), (negb _); cbn;
    repeat match goal with
      | |- context [redis.Exists ?c ?k ?s] =>
          destruct (redis.Exists c k s) as [[v ?] ?]; cbn;
          destruct (v =? 1); cbn
      | |- context [redis.Set_ ?c ?k ?v ?d ?s] =>
          destruct (redis.Set_ c k v d s) as [[? [?|]] ?]; cbn
      end;
    rewrite <- ?app_assoc; cbn;
    (eexists; split; [reflexivity || (symmetry; apply app_nil_r) | reflexivity]).
Qed.

(** X10. Every span a request opens is closed again, innermost first,
    whichever of the handler and the repository has a tracer and whichever
    way the request goes (past the gate, stopped by it, through a failed
    write): the span events of one request are bracketed. *)
Theorem request_spans_bracketed (i : idempontencyRepoRedis)
    (tr : option trace.Tracer) (rw : http.ResponseWriter) (h : http.Request)
    (w : World) :
  let r := MiddlewareIdempotency (redisHandler i tr) recordingHandler rw h w in
  bracketed [] (spans_since w r.2) = true.
Proof.
  intros r. destruct (middleware_spans i tr rw h w) as (evs & Hsp & Hbr).
  fold r in Hsp. by rewrite (spans_since_app _ _ _ Hsp).
Qed.

(* ===================================================================== *)
(** * The two files compared, and construction *)
(* ===================================================================== *)

(** X11. The middleware of idempontecyService.go and the one of
    IdempotencyHandler.go do the same whenever the handler has a tracer or
    the method is not a mutating one: same response, same world. *)
Theorem Service_middleware_agrees (service : IdempotencyHandlerImpl)
    (next : Handler) (rw : http.ResponseWriter) (h : http.Request)
    (w : World) :
  Tracer service <> None \/ mutating (http.Method h) = false ->
  Service.MiddlewareIdempotency service next rw h w =
    (Ret (MiddlewareIdempotency service next rw h w).1,
     (MiddlewareIdempotency service next rw h w).2).
Proof.
  intros H. unfold Service.MiddlewareIdempotency, MiddlewareIdempotency.
  destruct (mutating (http.Method h)).
  - destruct (Tracer service) as [t|]; [|destruct H; done].
    unfold defer, Tracer_Start, Span_End, record_span.
    unfold bind, mbind, M_bind, mret, M_ret. cbn.
    by destruct (gate _ _ _ _ _ _).
  - unfold bind, mbind, M_bind, mret, M_ret. by destruct (next rw h w).
Qed.

Lemma Service_middleware_agrees_witness :
  let service := redisHandler tracedRepo (Some otel) in
  let h := request http.MethodPost (keyed "abc") in
  (Tracer service <> None \/ mutating (http.Method h) = false)
  /\ Service.MiddlewareIdempotency service recordingHandler http.fresh h initial =
       (Ret (MiddlewareIdempotency service recordingHandler http.fresh h
               initial).1,
        (MiddlewareIdempotency service recordingHandler http.fresh h
           initial).2).
Proof.
  assert (Tracer (redisHandler tracedRepo (Some otel)) <> None
          \/ mutating (http.Method (request http.MethodPost (keyed "abc")))
             = false) as H by (left; discriminate).
  split; [exact H|].
  exact (Service_middleware_agrees (redisHandler tracedRepo (Some otel))
           recordingHandler http.fresh
           (request http.MethodPost (keyed "abc")) initial H).
Defined.

(** X12. The middleware of idempontecyService.go panics exactly when the
    handler has no tracer and the method is POST, PUT, PATCH or DELETE; it
    does so before anything else: nothing is written, no command is sent,
    the downstream handler is not called. *)
Theorem Service_middleware_panics_iff (service : IdempotencyHandlerImpl)
    (next : Handler) (rw : http.ResponseWriter) (h : http.Request)
    (w : World) :
  ((exists msg, (Service.MiddlewareIdempotency service next rw h w).1 = Panic msg)
   <-> Tracer service = None /\ mutating (http.Method h) = true)
  /\ ((exists msg, (Service.MiddlewareIdempotency service next rw h w).1
                   = Panic msg) ->
      (Service.MiddlewareIdempotency service next rw h w).2 = w).
Proof.
  unfold Service.MiddlewareIdempotency.
  destruct (Tracer service) as [t|]; destruct (mutating (http.Method h)).
  - unfold defer, Tracer_Start, Span_End, record_span.
    unfold bind, mbind, M_bind, mret, M_ret. cbn.
    destruct (gate _ _ _ _ _ _). cbn.
    split; [split|]; [intros [? ?] | intros [? _] | intros [? ?]]; done.
  - unfold bind, mbind, M_bind, mret, M_ret. destruct (next rw h w). cbn.
    split; [split|]; [intros [? ?] | intros [? _] | intros [? ?]]; done.
  - cbn. split; [split|]; eauto.
  - unfold bind, mbind, M_bind, mret, M_ret. destruct (next rw h w). cbn.
    split; [split|]; [intros [? ?] | intros [_ ?] | intros [? ?]]; done.
Qed.

(** X13. Given at least one tracer argument, the constructor of
    idempontecyService.go returns what the one of IdempotencyHandler.go
    returns: the two differ on the empty argument list only. *)
Theorem Service_constructor_agrees (tracer : list (option trace.Tracer))
    (env : gmap string string) :
  tracer <> [] ->
  Service.NewIdempotencyHandler tracer env = NewIdempotencyHandler tracer env.
Proof.
  intros Hne. destruct tracer as [|t [|t' ts]]; [done| |].
  - unfold Service.NewIdempotencyHandler, NewIdempotencyHandler.
    by count_tracers.
  - by rewrite Service_too_many, NewIdempotencyHandler_too_many.
Qed.

Lemma Service_constructor_agrees_witness :
  [Some otel] <> []
  /\ Service.NewIdempotencyHandler [Some otel] configured =
     NewIdempotencyHandler [Some otel] configured.
Proof.
  split; [discriminate|].
  apply (Service_constructor_agrees [Some otel] configured). discriminate.
Defined.

Lemma host_port_address (host port : string) :
  Sprintf "%s:%s" [host; port] = host +:+ ":" +:+ port.
Proof.
  change (Sprintf "%s:%s" [host; port])
    with (host +:+ String ":" (port +:+ "")).
  by rewrite append_empty.
Qed.

(** The repository constructor, case by case. *)
Lemma NewIdempotenceRepo_cases (tracer : list (option trace.Tracer))
    (env : gmap string string) :
  let host := Getenv env "IDEMPOTENCE_REDIS_HOST" in
  let port := Getenv env "IDEMPOTENCE_REDIS_PORT" in
  NewIdempotenceRepo tracer env =
    if bool_decide (1 < length tracer)%nat then
      Ret (Failure (tooManyArgumentsError "NewIdempotenceRepo"))
    else if String.eqb host "" || String.eqb port "" then
      Ret (Failure envError)
    else
      Ret (Value {| cli := redis.NewClient
                             {| redis.Addr := host +:+ ":" +:+ port |};
                    repoTracer := default None (head tracer) |}).
Proof.
  intros host port. unfold NewIdempotenceRepo. fold host port.
  destruct tracer as [|t [|t' ts]]; count_tracers; [| |done];
    destruct (String.eqb host "" || String.eqb port ""); try done;
    by rewrite host_port_address.
Qed.

Lemma NewIdempotencyHandler_cases (tracer : list (option trace.Tracer))
    (env : gmap string string) :
  let host := Getenv env "IDEMPOTENCE_REDIS_HOST" in
  let port := Getenv env "IDEMPOTENCE_REDIS_PORT" in
  NewIdempotencyHandler tracer env =
    if bool_decide (1 < length tracer)%nat then
      Ret (Failure (tooManyArgumentsError "NewIdempotencyService"))
    else if String.eqb host "" || String.eqb port "" then
      Ret (Failure envError)
    else
      Ret (Value (redisHandler
                    {| cli := redis.NewClient
                                {| redis.Addr := host +:+ ":" +:+ port |};
                       repoTracer := default None (head tracer) |}
                    (default None (head tracer)))).
Proof.
  intros host port. unfold NewIdempotencyHandler.
  destruct tracer as [|t [|t' ts]]; count_tracers; [| |done].
  - cbn. unfold bind, mbind, Go_bind.
    rewrite (NewIdempotenceRepo_cases [None] env). cbn zeta. fold host port.
    count_tracers.
    by destruct (String.eqb host "" || String.eqb port "").
  - cbn. unfold bind, mbind, Go_bind.
    rewrite (NewIdempotenceRepo_cases [t] env). cbn zeta. fold host port.
    count_tracers.
    by destruct (String.eqb host "" || String.eqb port "").
Qed.

(** X14. The constructors of IdempotencyHandler.go never panic: whatever
    the tracer arguments and the environment, each returns, either an
    instance or an error; [tracer[0]] is never out of range there. *)
Theorem constructors_never_panic (tracer : list (option trace.Tracer))
    (env : gmap string string) :
  (exists r, NewIdempotenceRepo tracer env = Ret r)
  /\ (exists r, NewIdempotencyHandler tracer env = Ret r).
Proof.
  rewrite NewIdempotenceRepo_cases, NewIdempotencyHandler_cases. cbn zeta.
  destruct (bool_decide _); [eauto|].
  destruct (_ || _); eauto.
Qed.

(** X15. Construction succeeds exactly when there is at most one tracer
    argument and both IDEMPOTENCE_REDIS_HOST and IDEMPOTENCE_REDIS_PORT are
    set to something non-empty; this is so for the repository and for the
    handler alike. *)
Theorem construction_succeeds_iff (tracer : list (option trace.Tracer))
    (env : gmap string string) :
  let ok := (length tracer <= 1)%nat
            /\ Getenv env "IDEMPOTENCE_REDIS_HOST" <> ""
            /\ Getenv env "IDEMPOTENCE_REDIS_PORT" <> "" in
  ((exists i, NewIdempotenceRepo tracer env = Ret (Value i)) <-> ok)
  /\ ((exists hd, NewIdempotencyHandler tracer env = Ret (Value hd)) <-> ok).
Proof.
  intros ok. subst ok.
  rewrite NewIdempotenceRepo_cases, NewIdempotencyHandler_cases. cbn zeta.
  destruct (bool_decide (1 < length tracer)%nat) eqn:Hlen.
  - apply bool_decide_eq_true in Hlen.
    split; (split; [intros [? ?]; done | intros (? & _); exfalso; lia]).
  - apply bool_decide_eq_false in Hlen.
    destruct (String.eqb (Getenv env "IDEMPOTENCE_REDIS_HOST") "") eqn:Eh;
      destruct (String.eqb (Getenv env "IDEMPOTENCE_REDIS_PORT") "") eqn:Ep;
      cbn [orb];
      first [apply String.eqb_eq in Eh | apply String.eqb_neq in Eh];
      first [apply String.eqb_eq in Ep | apply String.eqb_neq in Ep];
      split; (split; [intros [? ?] | intros (? & ? & ?)]);
      first [ congruence
            | eexists; reflexivity
            | repeat split; first [assumption | lia] ].
Qed.

(** X16. What a successful construction builds: a client for the address
    [host:port], and one tracer, the argument or nil, held by the handler
    and by its repository alike, so that the two trace together or not at
    all. *)
Theorem construction_shares_tracer (tracer : list (option trace.Tracer))
    (env : gmap string string) :
  (length tracer <= 1)%nat ->
  Getenv env "IDEMPOTENCE_REDIS_HOST" <> "" ->
  Getenv env "IDEMPOTENCE_REDIS_PORT" <> "" ->
  let t := default None (head tracer) in
  let i := {| cli := redis.NewClient
                {| redis.Addr := Getenv env "IDEMPOTENCE_REDIS_HOST" +:+ ":"
                                 +:+ Getenv env "IDEMPOTENCE_REDIS_PORT" |};
              repoTracer := t |} in
  NewIdempotenceRepo tracer env = Ret (Value i)
  /\ NewIdempotencyHandler tracer env = Ret (Value (redisHandler i t))
  /\ Tracer (redisHandler i t) = repoTracer i.
Proof.
  intros Hlen Hh Hp t i.
  rewrite NewIdempotenceRepo_cases, NewIdempotencyHandler_cases. cbn zeta.
  rewrite bool_decide_eq_false_2 by lia.
  apply String.eqb_neq in Hh, Hp. by rewrite Hh, Hp.
Qed.

Lemma construction_shares_tracer_witness :
  let i := {| cli := redis.NewClient {| redis.Addr := "localhost:6379" |};
              repoTracer := Some otel |} in
  (length [Some otel] <= 1)%nat
  /\ Getenv configured "IDEMPOTENCE_REDIS_HOST" <> ""
  /\ Getenv configured "IDEMPOTENCE_REDIS_PORT" <> ""
  /\ NewIdempotenceRepo [Some otel] configured = Ret (Value i)
  /\ NewIdempotencyHandler [Some otel] configured =
       Ret (Value (redisHandler i (Some otel)))
  /\ Tracer (redisHandler i (Some otel)) = repoTracer i.
Proof.
  assert (Getenv configured "IDEMPOTENCE_REDIS_HOST" <> "") as Hh
    by (vm_compute; discriminate).
  assert (Getenv configured "IDEMPOTENCE_REDIS_PORT" <> "") as Hp
    by (vm_compute; discriminate).
  assert (length [Some otel] <= 1)%nat as Hlen by (cbn; lia).
  cbv zeta. split; [exact Hlen|]. split; [exact Hh|]. split; [exact Hp|].
  exact (construction_shares_tracer [Some otel] configured Hlen Hh Hp).
Defined.

(* ===================================================================== *)
(** * The race, for every token *)
(* ===================================================================== *)

Lemma not_live_not_reported (s : redis.Server) (key : string) :
  redis.live s key = false -> reported s key = false.
Proof. unfold reported. intros ->. by destruct (redis.next_fault s). Qed.

(** The first piece of a request with a token: the existence check. *)
Lemma step_arrived (i : idempontencyRepoRedis) (tr : option trace.Tracer)
    (next : Handler) (rw : http.ResponseWriter) (h : http.Request)
    (w : World) :
  mutating (http.Method h) = true ->
  token h <> "" ->
  exists span ctx w1,
    step (redisHandler i tr) next (Arrived rw h) w =
      (Tested rw h span ctx (reported (backend w) (constructKey (token h))),
       w1)
    /\ backend w1 =
       redis.sent (redis.EXISTS (constructKey (token h)))
         (redis.db (backend w)) (backend w)
    /\ downstream w1 = downstream w.
Proof.
  intros Hm Htok. apply String.eqb_neq in Htok.
  unfold step, condition. fold (token h). rewrite Hm, Htok.
  cbn [Tracer repo redisHandler Exists redisRepo negb].
  destruct tr as [t|].
  - unfold Tracer_Start, record_span. unfold bind, mbind, M_bind, mret, M_ret.
    match goal with |- context [repoExists i ?id ?c ?w0] =>
      destruct (repoExists_run i id c w0) as (Hv & Hb & Hd);
      destruct (repoExists i id c w0) as [seen w1] end.
    cbn in Hv, Hb, Hd. subst seen. by eexists _, _, _.
  - unfold bind, mbind, M_bind, mret, M_ret.
    destruct (repoExists_run i (token h) None w) as (Hv & Hb & Hd).
    destruct (repoExists i (token h) None w) as [seen w1].
    cbn in Hv, Hb, Hd. subst seen. by eexists _, _, _.
Qed.

(** The second piece, after a negative answer: the save and the
    downstream handler. *)
Lemma step_tested_absent (i : idempontencyRepoRedis)
    (tr : option trace.Tracer) (rw : http.ResponseWriter) (h : http.Request)
    (span : option trace.Span) (ctx : option trace.Context) (w : World) :
  exists w1,
    step (redisHandler i tr) recordingHandler (Tested rw h span ctx false) w =
      (Returned rw, w1)
    /\ downstream w1 = downstream w ++ [h]
    /\ backend w1 =
       (redis.Set_ (cli i) (constructKey (token h)) true (Duration_mul 3 Minute)
          (backend w)).2.
Proof.
  unfold step. fold (token h). cbn [repo redisHandler Save redisRepo].
  unfold bind, mbind, M_bind, mret, M_ret.
  destruct (repoSave_run i (token h) ctx w) as (_ & Hb & Hd).
  destruct (repoSave i (token h) ctx w) as [res w1]. cbn in Hb, Hd.
  destruct span; cbn; eexists; (split; [reflexivity|]); cbn;
    by rewrite Hb, Hd.
Qed.

(** X17. The race is there for every token, every handler and every state
    of the server in which the token has no live record: of two requests
    with the token, when the second makes its existence check before the
    first has saved, both find it absent, both save it and both reach the
    downstream handler. *)
Theorem race_for_every_token (i : idempontencyRepoRedis)
    (tr : option trace.Tracer) (tok : string) (h0 h1 : http.Request)
    (rw0 rw1 : http.ResponseWriter) (w : World) :
  tok <> "" ->
  mutating (http.Method h0) = true -> token h0 = tok ->
  mutating (http.Method h1) = true -> token h1 = tok ->
  redis.live (backend w) (constructKey tok) = false ->
  let r := interleave (redisHandler i tr) recordingHandler [0; 1; 0; 1]%nat
             [Arrived rw0 h0; Arrived rw1 h1] w in
  let key := constructKey tok in
  r.1 = [Returned rw0; Returned rw1]
  /\ downstream r.2 = downstream w ++ [h0; h1]
  /\ commands_since w r.2 =
       [redis.EXISTS key; redis.EXISTS key;
        redis.SET key true (Duration_mul 3 Minute);
        redis.SET key true (Duration_mul 3 Minute)].
Proof.
  intros Htok Hm0 Ht0 Hm1 Ht1 Hlive r key. subst r key.
  assert (token h0 <> "") as Htok0 by (by rewrite Ht0).
  assert (token h1 <> "") as Htok1 by (by rewrite Ht1).
  destruct (step_arrived i tr recordingHandler rw0 h0 w Hm0 Htok0)
    as (s0 & c0 & w1 & E1 & B1 & D1).
  destruct (step_arrived i tr recordingHandler rw1 h1 w1 Hm1 Htok1)
    as (s1 & c1 & w2 & E2 & B2 & D2).
  destruct (step_tested_absent i tr rw0 h0 s0 c0 w2) as (w3 & E3 & D3 & B3).
  destruct (step_tested_absent i tr rw1 h1 s1 c1 w3) as (w4 & E4 & D4 & B4).
  rewrite Ht0 in *. rewrite Ht1 in *.
  rewrite (not_live_not_reported _ _ Hlive) in E1.
  assert (reported (backend w1) (constructKey tok) = false) as Hrep1.
  { apply not_live_not_reported. by rewrite B1. }
  rewrite Hrep1 in E2.
  cbn [interleave]. unfold bind, mbind, M_bind, mret, M_ret.
  cbn [lookup list_lookup]. rewrite E1. cbn [insert list_insert lookup list_lookup].
  rewrite E2. cbn [insert list_insert lookup list_lookup].
  rewrite E3. cbn [insert list_insert lookup list_lookup].
  rewrite E4. cbn [insert list_insert fst snd].
  split; [reflexivity|]. split.
  - rewrite D4, D3, D2, D1. by rewrite <- app_assoc.
  - apply commands_since_app.
    rewrite B4, Set_log, B3, Set_log, B2, B1. cbn.
    by rewrite <- !app_assoc.
Qed.

Lemma race_for_every_token_witness :
  let h0 := request http.MethodPut (keyed "order-17") in
  let h1 := request http.MethodPost (keyed "order-17") in
  let r := interleave (redisHandler tracedRepo (Some otel)) recordingHandler
             [0; 1; 0; 1]%nat
             [Arrived http.fresh h0; Arrived http.fresh h1] claimed in
  let key := constructKey "order-17" in
  "order-17" <> ""
  /\ mutating (http.Method h0) = true /\ token h0 = "order-17"
  /\ mutating (http.Method h1) = true /\ token h1 = "order-17"
  /\ redis.live (backend claimed) (constructKey "order-17") = false
  /\ r.1 = [Returned http.fresh; Returned http.fresh]
  /\ downstream r.2 = downstream claimed ++ [h0; h1]
  /\ commands_since claimed r.2 =
       [redis.EXISTS key; redis.EXISTS key;
        redis.SET key true (Duration_mul 3 Minute);
        redis.SET key true (Duration_mul 3 Minute)].
Proof.
  assert ("order-17" <> "") as Htok by discriminate.
  cbv zeta. split; [exact Htok|]. split; [reflexivity|]. split; [reflexivity|].
  split; [reflexivity|]. split; [reflexivity|]. split; [reflexivity|].
  exact (race_for_every_token tracedRepo (Some otel) "order-17"
           (request http.MethodPut (keyed "order-17"))
           (request http.MethodPost (keyed "order-17"))
           http.fresh http.fresh claimed Htok eq_refl eq_refl eq_refl eq_refl
           eq_refl).
Defined.



